(** * jupyterlab-variableInspector: the display panel and the host wiring

    A shallow embedding of [src/variableinspector.ts] (the panel that
    renders inspection updates) and of [src/index.ts] (the three plugins
    that wire consoles and notebooks to the inspector manager), with the
    properties of the specification stated over it.

    Objects that TypeScript compares with [===] are identified by a
    reference (a natural number); a nullable reference is an [option].
    JavaScript objects used as dictionaries are finite maps. Calls on
    external objects (signals, handlers, the dock layout) are recorded as
    effects, in program order. *)

From stdpp Require Import gmap strings list.

(** ** src/variableinspector.ts *)

Module Inspector.

(** References to [IVariableInspector.IInspectable] objects. *)
Definition ref := nat.

(** [IVariableInspector.IVariable] *)
Record IVariable := {
  varName : string;
  varSize : string;
  varShape : string;
  varContent : string;
  varType : string;
  isMatrix : bool
}.

(** [IVariableInspector.IVariableKernelInfo]: all three fields are optional. *)
Record IVariableKernelInfo := {
  kernelName : option string;
  languageName : option string;
  context : option string
}.

(** [IVariableInspector.IVariableInspectorUpdate] *)
Record IVariableInspectorUpdate := {
  info : IVariableKernelInfo;
  payload : list IVariable
}.

(** A [DataModel] of [@phosphor/datagrid] is opaque to this code. *)
Inductive DataModel := DataModelHandle (n : nat).

(** The two signals of an inspectable and the two slots of the panel. *)
Inductive signal := inspected | disposed.
Inductive slot := onInspectorUpdate_slot | onSourceDisposed_slot.

Global Instance signal_eq_dec : EqDecision signal.
Proof. solve_decision. Defined.
Global Instance slot_eq_dec : EqDecision slot.
Proof. solve_decision. Defined.

(** *** The part of the DOM the panel touches *)

(** The closure stored in [row.onclick]; it captures [name] (and [this]). *)
Inductive ClickHandler := MatrixClick (name : string).

(** A table row: its click handler and the [innerHTML] of its cells. *)
Record Row := {
  onclick : option ClickHandler;
  cells : list string
}.

(** A [thead] or [tfoot] section. *)
Record TableSection := {
  className : string;
  rows : list Row
}.

Record Table := {
  tableClassName : string;
  tHead : option TableSection;
  tFoot : option TableSection
}.

Definition PANEL_CLASS := "jp-VarInspector".
Definition TABLE_CLASS := "jp-VarInspector-table".
Definition TABLE_BODY_CLASS := "jp-VarInspector-content".
Definition TOOLBAR_BUTTON_CLASS := "jp-Toolbar-kernelName".

Definition empty_row : Row := {| onclick := None; cells := [] |}.
Definition empty_section : TableSection := {| className := ""; rows := [] |}.

(** [insertRow(i)] and [insertCell(i)] insert before position [i]; the DOM
    raises [IndexSizeError] when [i] is greater than the number of
    children. *)
Definition insert_at {A} (i : nat) (x : A) (l : list A) : option (list A) :=
  if decide (i <= length l) then Some (take i l ++ x :: drop i l) else None.

(** [section.insertRow()]: without an index the row is appended; the new
    row is returned, here as its position in the section. *)
Definition insertRow (s : TableSection) : TableSection * nat :=
  ({| className := className s; rows := rows s ++ [empty_row] |},
   length (rows s)).

(** An update of the row at position [i] of a section, in place. *)
Definition with_row (i : nat) (f : Row -> option Row) (s : TableSection)
  : option TableSection :=
  r ← rows s !! i;
  r' ← f r;
  Some {| className := className s; rows := <[i := r']> (rows s) |}.

Definition set_onclick (h : ClickHandler) (r : Row) : option Row :=
  Some {| onclick := Some h; cells := cells r |}.

(** [cell = row.insertCell(i); cell.innerHTML = html] *)
Definition insertCell (i : nat) (html : string) (r : Row) : option Row :=
  cs ← insert_at i html (cells r);
  Some {| onclick := onclick r; cells := cs |}.

Definition backslash : Ascii.ascii := Ascii.ascii_of_nat 92.
Definition letter_n : Ascii.ascii := Ascii.ascii_of_nat 110.

(** [s.replace(/\\n/g, "</br>")]: the regular expression matches the two
    characters backslash and [n]; every occurrence, scanning from the left,
    is replaced. *)
Fixpoint replace_backslash_n (s : string) : string :=
  match s with
  | EmptyString => EmptyString
  | String c rest =>
      match rest with
      | String c' rest' =>
          if (Ascii.eqb c backslash && Ascii.eqb c' letter_n)%bool
          then "</br>" +:+ replace_backslash_n rest'
          else String c (replace_backslash_n rest)
      | EmptyString => String c EmptyString
      end
  end.

(** [Private.createTable()] *)
Definition createTable : option Table :=
  let thead := empty_section in
  let '(thead, hrow) := (insertRow thead) in
  thead ← with_row hrow (insertCell 0 "Name") thead;
  thead ← with_row hrow (insertCell 1 "Type") thead;
  thead ← with_row hrow (insertCell 2 "Size") thead;
  thead ← with_row hrow (insertCell 3 "Shape") thead;
  thead ← with_row hrow (insertCell 4 "Content") thead;
  Some {| tableClassName := ""; tHead := Some thead; tFoot := None |}.

(** *** The matrix view *)

Record DataGrid := {
  baseRowSize : nat;
  baseColumnSize : nat;
  baseRowHeaderSize : nat;
  baseColumnHeaderSize : nat;
  model : option DataModel;
  title_label : string;
  title_closable : bool
}.

(** The dock layout of the panel's parent: the widgets added to it, each
    with the [mode] option of [addWidget]. *)
Definition DockLayout := list (DataGrid * string).

(** *** Effects on the objects around the panel *)

Inductive Effect :=
| Disconnect (src : ref) (sg : signal) (sl : slot)
| Connect (src : ref) (sg : signal) (sl : slot)
| PerformInspection (src : ref)
| PerformMatrixInspection (src : ref) (name : string) (k : ClickHandler)
| SuperDispose.

Global Instance Effect_inhabited : Inhabited Effect := populate SuperDispose.

(** *** [class VariableInspectorPanel] *)

Record VariableInspectorPanel := {
  _source : option ref;
  _table : Table;
  _kernelInfoWidget : string;
  isDisposed : bool;
  parent : option DockLayout
}.

Definition with_source (s : option ref) (p : VariableInspectorPanel) :=
  {| _source := s; _table := _table p;
     _kernelInfoWidget := _kernelInfoWidget p;
     isDisposed := isDisposed p; parent := parent p |}.

Definition with_table (t : Table) (p : VariableInspectorPanel) :=
  {| _source := _source p; _table := t;
     _kernelInfoWidget := _kernelInfoWidget p;
     isDisposed := isDisposed p; parent := parent p |}.

Definition with_kernelInfo (s : string) (p : VariableInspectorPanel) :=
  {| _source := _source p; _table := _table p;
     _kernelInfoWidget := s;
     isDisposed := isDisposed p; parent := parent p |}.

Definition with_parent (l : option DockLayout) (p : VariableInspectorPanel) :=
  {| _source := _source p; _table := _table p;
     _kernelInfoWidget := _kernelInfoWidget p;
     isDisposed := isDisposed p; parent := l |}.

Definition with_isDisposed (b : bool) (p : VariableInspectorPanel) :=
  {| _source := _source p; _table := _table p;
     _kernelInfoWidget := _kernelInfoWidget p;
     isDisposed := b; parent := parent p |}.

(** The constructor: the table with its header, the toolbar item showing
    ["Loading..."], no source. *)
Definition new_panel : option VariableInspectorPanel :=
  t ← createTable;
  Some {| _source := None;
          _table := {| tableClassName := TABLE_CLASS;
                       tHead := tHead t; tFoot := tFoot t |};
          _kernelInfoWidget := "Loading...";
          isDisposed := false;
          parent := None |}.

(** [set source(source)] *)
Definition set_source (source : option ref) (p : VariableInspectorPanel)
  : VariableInspectorPanel * list Effect :=
  if decide (_source p = source) then (p, [])
  else
    let unsub :=
      match _source p with
      | Some old => [Disconnect old inspected onInspectorUpdate_slot;
                     Disconnect old disposed onSourceDisposed_slot]
      | None => []
      end in
    let p := with_source source p in
    let sub :=
      match _source p with
      | Some new => [Connect new inspected onInspectorUpdate_slot;
                     Connect new disposed onSourceDisposed_slot;
                     PerformInspection new]
      | None => []
      end in
    (p, unsub ++ sub).

(** [dispose()] *)
Definition dispose (p : VariableInspectorPanel)
  : VariableInspectorPanel * list Effect :=
  if isDisposed p then (p, [])
  else
    let '(p, es) := set_source None p in
    (with_isDisposed true p, es ++ [SuperDispose]).

(** A string operand of [+]: [undefined] prints as ["undefined"]. *)
Definition js_to_string (o : option string) : string :=
  default "undefined" o.

(** Truthiness of an optional string. *)
Definition truthy (o : option string) : bool :=
  match o with
  | Some s => negb (String.eqb s "")
  | None => false
  end.

(** [Private.ToolbarKernelInfo]: [set content(info)], as the resulting
    [innerHTML] of the widget's node. *)
Definition kernelInfo_content (i : IVariableKernelInfo) : string :=
  if truthy (context i) then js_to_string (context i)
  else "Inspecting " +:+ js_to_string (languageName i) +:+ "-kernel '"
       +:+ js_to_string (kernelName i).

(** The body of the [for] loop of [onInspectorUpdate], for [args[index]]. *)
Definition render_row (v : IVariable) (tfoot : TableSection)
  : option TableSection :=
  let '(tfoot, row) := insertRow tfoot in
  tfoot ← (if isMatrix v
           then with_row row (set_onclick (MatrixClick (varName v))) tfoot
           else Some tfoot);
  tfoot ← with_row row (insertCell 0 (varName v)) tfoot;
  tfoot ← with_row row (insertCell 1 (varType v)) tfoot;
  tfoot ← with_row row (insertCell 2 (varSize v)) tfoot;
  tfoot ← with_row row (insertCell 3 (varShape v)) tfoot;
  with_row row (insertCell 4 (replace_backslash_n (varContent v))) tfoot.

(** [for (var index = 0; index < args.length; index++)]: [todo] counts the
    iterations left, [args.length - index]; reading past the end of [args]
    gives [undefined], whose field access throws. *)
Fixpoint render_loop (args : list IVariable) (todo index : nat)
  (tfoot : TableSection) : option TableSection :=
  match todo with
  | O => Some tfoot
  | S todo' =>
      v ← args !! index;
      tfoot ← render_row v tfoot;
      render_loop args todo' (S index) tfoot
  end.

(** [onInspectorUpdate(sender, allArgs)] *)
Definition onInspectorUpdate (allArgs : IVariableInspectorUpdate)
  (p : VariableInspectorPanel) : option VariableInspectorPanel :=
  let kernelInfo := info allArgs in
  let args := payload allArgs in
  let p := with_kernelInfo (kernelInfo_content kernelInfo) p in
  (* deleteTFoot(); createTFoot(); tFoot.className = TABLE_BODY_CLASS *)
  let tfoot := {| className := TABLE_BODY_CLASS; rows := [] |} in
  tfoot ← render_loop args (length args) 0 tfoot;
  Some (with_table {| tableClassName := tableClassName (_table p);
                      tHead := tHead (_table p);
                      tFoot := Some tfoot |} p).

(** [onSourceDisposed(sender, args)] *)
Definition onSourceDisposed (p : VariableInspectorPanel)
  : VariableInspectorPanel * list Effect :=
  set_source None p.

(** [_showMatrix(dataModel, name)]; [this.parent] is [null] while the panel
    is not attached, and reading [layout] from it throws. *)
Definition _showMatrix (dataModel : DataModel) (name : string)
  (p : VariableInspectorPanel) : option VariableInspectorPanel :=
  let datagrid := {| baseRowSize := 32; baseColumnSize := 128;
                     baseRowHeaderSize := 64; baseColumnHeaderSize := 32;
                     model := Some dataModel;
                     title_label := "Matrix: " +:+ name;
                     title_closable := true |} in
  lout ← parent p;
  Some (with_parent (Some (lout ++ [(datagrid, "split-right")])) p).

(** A click on a row runs its [onclick] handler, if it has one: the call
    [this._source.performMatrixInspection(name)] goes to the source the
    panel has at the time of the click (and throws when it has none); the
    handler itself is the continuation of the promise. *)
Definition click (r : Row) (p : VariableInspectorPanel)
  : option (list Effect) :=
  match onclick r with
  | None => Some []
  | Some (MatrixClick name) =>
      s ← _source p;
      Some [PerformMatrixInspection s name (MatrixClick name)]
  end.

(** The [then] callback of a click, run when the promise of
    [performMatrixInspection] resolves with [model]. *)
Definition matrix_resolved (k : ClickHandler) (m : DataModel)
  (p : VariableInspectorPanel) : option VariableInspectorPanel :=
  match k with
  | MatrixClick name => _showMatrix m name p
  end.

(** What the rows of the table body show for a payload, in the words of
    the panel's contract: one row per variable, in payload order; the cells
    are name, type, size, shape and content; a matrix row carries the click
    action. [content_shown] is what becomes of the content field. *)
Definition shown_row (content_shown : string -> string) (v : IVariable)
  : Row :=
  {| onclick := if isMatrix v then Some (MatrixClick (varName v)) else None;
     cells := [varName v; varType v; varSize v; varShape v;
               content_shown (varContent v)] |}.

(** The row as the panel renders it: the content cell holds the content
    field after the replacement. *)
Definition rendered_row : IVariable -> Row := shown_row replace_backslash_n.

(** The rows of the table body of a panel. *)
Definition body_rows (p : VariableInspectorPanel) : list Row :=
  match tFoot (_table p) with
  | Some tfoot => rows tfoot
  | None => []
  end.

(** *** The connections between sources and the panel *)

(** A connection of a slot of the panel to a signal of a source.
    [@phosphor/signaling] keeps them per signal: [connect] adds a
    connection unless it is there already, [disconnect] removes it. *)
Definition Connection : Type := ref * signal * slot.

Definition connect (c : Connection) (cs : list Connection)
  : list Connection :=
  if decide (c ∈ cs) then cs else cs ++ [c].

Definition disconnect (c : Connection) (cs : list Connection)
  : list Connection :=
  filter (fun c' => c' <> c) cs.

Definition apply_effect (cs : list Connection) (e : Effect)
  : list Connection :=
  match e with
  | Connect s sg sl => connect (s, sg, sl) cs
  | Disconnect s sg sl => disconnect (s, sg, sl) cs
  | _ => cs
  end.

(** The panel together with the connections to it and the calls it has
    made so far. *)
Record Bound := {
  panel : VariableInspectorPanel;
  connections : list Connection;
  calls : list Effect
}.

Definition perform (r : VariableInspectorPanel * list Effect) (b : Bound)
  : Bound :=
  {| panel := r.1;
     connections := foldl apply_effect (connections b) r.2;
     calls := calls b ++ r.2 |}.

(** [panel.source = s] *)
Definition assign_source (s : option ref) (b : Bound) : Bound :=
  perform (set_source s (panel b)) b.

(** What a source emits. *)
Inductive Emission :=
| EmitInspected (u : IVariableInspectorUpdate)
| EmitDisposed.

(** A source emits on one of its signals: the slot of the panel runs if
    it is connected to that signal of that source. *)
Definition emit (src : ref) (e : Emission) (b : Bound) : option Bound :=
  match e with
  | EmitInspected u =>
      if decide ((src, inspected, onInspectorUpdate_slot) ∈ connections b)
      then
        p ← onInspectorUpdate u (panel b);
        Some {| panel := p; connections := connections b;
                calls := calls b |}
      else Some b
  | EmitDisposed =>
      if decide ((src, disposed, onSourceDisposed_slot) ∈ connections b)
      then Some (perform (onSourceDisposed (panel b)) b)
      else Some b
  end.

(** The panel listens to its source and to nothing else. *)
Definition subscribed (b : Bound) : Prop :=
  connections b =
    match _source (panel b) with
    | Some s => [(s, inspected, onInspectorUpdate_slot);
                 (s, disposed, onSourceDisposed_slot)]
    | None => []
    end.

End Inspector.

(** ** The inspection handler (src/handler.ts is not part of the sources) *)

Module Handler.
Import Inspector.





Section PerformInspection.

(** The parser of the reply's textual payload and the serializer whose
    output is compared with the cache; the spec fixes neither. *)
Context (parse : string -> option (list IVariable)).
Context (serialize : list IVariable -> string).



End PerformInspection.

End Handler.

(** ** The inspector manager (src/manager.ts is not part of the sources) *)

Module Manager.

(** [session.path], the identifier handlers are registered under. *)
Record Session := { path : string }.

(** Modelled from the spec: a connector bound to one session
    ([kernelconnector.ts] is missing); [connector_obj] is its identity. *)
Record KernelConnector := {
  connector_obj : nat;
  session : Session
}.

(** [VariableInspectionHandler.IOptions], as [index.ts] fills it. *)
Record IOptions := {
  queryCommand : string;
  matrixQueryCommand : string;
  connector : KernelConnector;
  initScript : string;
  id : string
}.

(** An instance of [VariableInspectionHandler]: its identity and the
    options it was constructed with. *)
Record VariableInspectionHandler := {
  handler_obj : nat;
  options : IOptions
}.

(** The two implementations of [IVariableInspector.IInspectable] that
    [index.ts] constructs. *)
Inductive Inspectable :=
| Inspection (h : VariableInspectionHandler)
| Dummy (obj : nat) (c : KernelConnector).

Definition obj_of (i : Inspectable) : nat :=
  match i with
  | Inspection h => handler_obj h
  | Dummy o _ => o
  end.

Global Instance Session_eq_dec : EqDecision Session.
Proof. solve_decision. Defined.
Global Instance KernelConnector_eq_dec : EqDecision KernelConnector.
Proof. solve_decision. Defined.
Global Instance IOptions_eq_dec : EqDecision IOptions.
Proof. solve_decision. Defined.
Global Instance VariableInspectionHandler_eq_dec :
  EqDecision VariableInspectionHandler.
Proof. solve_decision. Defined.
Global Instance Inspectable_eq_dec : EqDecision Inspectable.
Proof. solve_decision. Defined.

(** Modelled from the spec: the manager of section 4.5 ([manager.ts] is
    missing): the mapping from session identifier to handler, the nullable
    active handler, and the [panel] property that [index.ts] reads and
    assigns (a reference to a [VariableInspectorPanel], or [null]). *)
Record VariableInspectorManager := {
  _handlers : gmap string VariableInspectionHandler;
  _source : option Inspectable;
  _panel : option nat
}.

Definition empty : VariableInspectorManager :=
  {| _handlers := ∅; _source := None; _panel := None |}.

(** Modelled from the spec: [hasHandler(sessionId)] ([manager.ts] is
    missing). *)
Definition hasHandler (sid : string) (m : VariableInspectorManager) : bool :=
  bool_decide (is_Some (_handlers m !! sid)).

(** Modelled from the spec: [getHandler(sessionId)], which fails when no
    handler is registered under the identifier ([manager.ts] is missing). *)
Definition getHandler (sid : string) (m : VariableInspectorManager)
  : option VariableInspectionHandler :=
  _handlers m !! sid.

(** Modelled from the spec: [addHandler(handler)] registers by the
    handler's session identifier, overwriting any previous entry for that
    identifier ([manager.ts] is missing). *)
Definition addHandler (h : VariableInspectionHandler)
  (m : VariableInspectorManager) : VariableInspectorManager :=
  {| _handlers := <[id (options h) := h]> (_handlers m);
     _source := _source m; _panel := _panel m |}.

(** Modelled from the spec: [source] is a read/write property
    ([manager.ts] is missing). *)
Definition source (m : VariableInspectorManager) : option Inspectable :=
  _source m.

Definition set_source (s : option Inspectable) (m : VariableInspectorManager)
  : VariableInspectorManager :=
  {| _handlers := _handlers m; _source := s; _panel := _panel m |}.

(** The [panel] property, read and assigned by [index.ts]. *)
Definition panel (m : VariableInspectorManager) : option nat := _panel m.

Definition set_panel (p : option nat) (m : VariableInspectorManager)
  : VariableInspectorManager :=
  {| _handlers := _handlers m; _source := _source m; _panel := p |}.

(** Modelled from the spec: what the manager does when a handler reports
    its disposal ([manager.ts] is missing). Only the active handler is
    listened to: its reference is cleared. A disposed handler is also
    removed from the mapping, where it is still the one registered under
    its identifier. *)
Definition onHandlerDisposed (h : Inspectable) (m : VariableInspectorManager)
  : VariableInspectorManager :=
  let handlers :=
    match h with
    | Inspection vh =>
        if decide (_handlers m !! id (options vh) = Some vh)
        then delete (id (options vh)) (_handlers m)
        else _handlers m
    | Dummy _ _ => _handlers m
    end in
  {| _handlers := handlers;
     _source := if decide (_source m = Some h) then None else _source m;
     _panel := _panel m |}.

(** The handlers registered under an identifier, from the entries of the
    mapping. *)
Definition registered_under (sid : string) (m : VariableInspectorManager)
  : list VariableInspectionHandler :=
  omap (fun kv : string * VariableInspectionHandler =>
          if decide (kv.1 = sid) then Some kv.2 else None)
       (map_to_list (_handlers m)).

End Manager.

(** ** src/index.ts *)

Module Languages.

(** [Languages.LanguageModel] ([inspectorscripts.ts] is not part of the
    sources): the three fields [index.ts] reads. *)
Record LanguageModel := {
  initScript : string;
  queryCommand : string;
  matrixQueryCommand : string
}.

End Languages.

Module Plugin.
Import Manager.

(** The two trackers, one per wiring plugin. *)
Inductive Tracker := Consoles | Notebooks.

(** A console or notebook panel: its identity, its [id], its [session]. *)
Record Widget := {
  widget_obj : nat;
  widget_id : string;
  widget_session : Session
}.

(** A promise of an inspectable. A fulfilled promise holds a value that
    may be [null] or [undefined] (here [None]). *)
Inductive PromiseState :=
| Pending
| Fulfilled (v : option Inspectable)
| Rejected (reason : string).

(** The only callback ever passed to [then] on such a promise: the one of
    [currentChanged], which captures nothing but the manager. *)
Inductive Reaction := ActivateSource.

Record Promise := {
  pstate : PromiseState;
  reactions : list Reaction
}.

(** Callbacks waiting for a promise the environment settles:
    [connector.ready.then(...)] and [handler.ready.then(...)], with the
    variables they capture. *)
Inductive Task :=
| ConnectorReadyThen (t : Tracker) (panel : Widget)
    (connector : KernelConnector) (promise : nat)
| HandlerReadyThen (handler : VariableInspectionHandler) (promise : nat).

(** The closures connected to a [disposed] signal: the one of [newPanel]
    and the one of the two [widgetAdded] callbacks. *)
Inductive Slot :=
| ClearManagerPanel (panel : nat)
| ForgetAndDispose (t : Tracker) (panel_id : string) (handler : Inspectable).

(** Calls that leave the wiring, in program order. *)
Inductive Output :=
| ConsoleLog (msg : string)
| PerformInspection (h : Inspectable)
| TrackerAdd (panel : nat)
| ShellAdd (panel : nat) (area : string)
| ShellActivateById (wid : string)
| Thrown (what : string).

Global Instance Tracker_eq_dec : EqDecision Tracker.
Proof. solve_decision. Defined.
Global Instance PromiseState_eq_dec : EqDecision PromiseState.
Proof. solve_decision. Defined.
Global Instance Output_eq_dec : EqDecision Output.
Proof. solve_decision. Defined.

(** Everything the three plugins share or own: the manager, the two
    [handlers] dictionaries, the promises and pending callbacks, the slots
    connected to each object's [disposed] signal, the trackers, the
    disposed and the attached objects, and the next fresh identity. *)
Record World := {
  manager : VariableInspectorManager;
  console_handlers : gmap string nat;
  notebook_handlers : gmap string nat;
  promises : gmap nat Promise;
  tasks : list Task;
  disposed_slots : gmap nat (list Slot);
  console_tracker : gset nat;
  notebook_tracker : gset nat;
  disposed_objs : gset nat;
  attached : gset nat;
  next_obj : nat;
  output : list Output
}.

Definition init : World :=
  {| manager := Manager.empty;
     console_handlers := ∅; notebook_handlers := ∅;
     promises := ∅; tasks := []; disposed_slots := ∅;
     console_tracker := ∅; notebook_tracker := ∅;
     disposed_objs := ∅; attached := ∅;
     next_obj := 0; output := [] |}.

Definition set_manager (m : VariableInspectorManager) (w : World) : World :=
  {| manager := m;
     console_handlers := console_handlers w;
     notebook_handlers := notebook_handlers w;
     promises := promises w; tasks := tasks w;
     disposed_slots := disposed_slots w;
     console_tracker := console_tracker w;
     notebook_tracker := notebook_tracker w;
     disposed_objs := disposed_objs w; attached := attached w;
     next_obj := next_obj w; output := output w |}.

Definition handlers (t : Tracker) (w : World) : gmap string nat :=
  match t with
  | Consoles => console_handlers w
  | Notebooks => notebook_handlers w
  end.

Definition set_handlers (t : Tracker) (h : gmap string nat) (w : World)
  : World :=
  {| manager := manager w;
     console_handlers :=
       match t with Consoles => h | Notebooks => console_handlers w end;
     notebook_handlers :=
       match t with Consoles => notebook_handlers w | Notebooks => h end;
     promises := promises w; tasks := tasks w;
     disposed_slots := disposed_slots w;
     console_tracker := console_tracker w;
     notebook_tracker := notebook_tracker w;
     disposed_objs := disposed_objs w; attached := attached w;
     next_obj := next_obj w; output := output w |}.

Definition set_promises (ps : gmap nat Promise) (w : World) : World :=
  {| manager := manager w;
     console_handlers := console_handlers w;
     notebook_handlers := notebook_handlers w;
     promises := ps; tasks := tasks w;
     disposed_slots := disposed_slots w;
     console_tracker := console_tracker w;
     notebook_tracker := notebook_tracker w;
     disposed_objs := disposed_objs w; attached := attached w;
     next_obj := next_obj w; output := output w |}.

Definition set_tasks (ts : list Task) (w : World) : World :=
  {| manager := manager w;
     console_handlers := console_handlers w;
     notebook_handlers := notebook_handlers w;
     promises := promises w; tasks := ts;
     disposed_slots := disposed_slots w;
     console_tracker := console_tracker w;
     notebook_tracker := notebook_tracker w;
     disposed_objs := disposed_objs w; attached := attached w;
     next_obj := next_obj w; output := output w |}.

Definition set_disposed_slots (s : gmap nat (list Slot)) (w : World)
  : World :=
  {| manager := manager w;
     console_handlers := console_handlers w;
     notebook_handlers := notebook_handlers w;
     promises := promises w; tasks := tasks w;
     disposed_slots := s;
     console_tracker := console_tracker w;
     notebook_tracker := notebook_tracker w;
     disposed_objs := disposed_objs w; attached := attached w;
     next_obj := next_obj w; output := output w |}.

Definition tracker (t : Tracker) (w : World) : gset nat :=
  match t with
  | Consoles => console_tracker w
  | Notebooks => notebook_tracker w
  end.

Definition set_trackers (c n : gset nat) (w : World) : World :=
  {| manager := manager w;
     console_handlers := console_handlers w;
     notebook_handlers := notebook_handlers w;
     promises := promises w; tasks := tasks w;
     disposed_slots := disposed_slots w;
     console_tracker := c;
     notebook_tracker := n;
     disposed_objs := disposed_objs w; attached := attached w;
     next_obj := next_obj w; output := output w |}.

Definition set_disposed_objs (d : gset nat) (w : World) : World :=
  {| manager := manager w;
     console_handlers := console_handlers w;
     notebook_handlers := notebook_handlers w;
     promises := promises w; tasks := tasks w;
     disposed_slots := disposed_slots w;
     console_tracker := console_tracker w;
     notebook_tracker := notebook_tracker w;
     disposed_objs := d; attached := attached w;
     next_obj := next_obj w; output := output w |}.

Definition set_attached (a : gset nat) (w : World) : World :=
  {| manager := manager w;
     console_handlers := console_handlers w;
     notebook_handlers := notebook_handlers w;
     promises := promises w; tasks := tasks w;
     disposed_slots := disposed_slots w;
     console_tracker := console_tracker w;
     notebook_tracker := notebook_tracker w;
     disposed_objs := disposed_objs w; attached := a;
     next_obj := next_obj w; output := output w |}.

(** [new]: a fresh identity. *)
Definition fresh (w : World) : nat * World :=
  (next_obj w,
   {| manager := manager w;
      console_handlers := console_handlers w;
      notebook_handlers := notebook_handlers w;
      promises := promises w; tasks := tasks w;
      disposed_slots := disposed_slots w;
      console_tracker := console_tracker w;
      notebook_tracker := notebook_tracker w;
      disposed_objs := disposed_objs w; attached := attached w;
      next_obj := S (next_obj w); output := output w |}).

Definition out (o : Output) (w : World) : World :=
  {| manager := manager w;
     console_handlers := console_handlers w;
     notebook_handlers := notebook_handlers w;
     promises := promises w; tasks := tasks w;
     disposed_slots := disposed_slots w;
     console_tracker := console_tracker w;
     notebook_tracker := notebook_tracker w;
     disposed_objs := disposed_objs w; attached := attached w;
     next_obj := next_obj w; output := output w ++ [o] |}.

(** [o.disposed.connect(slot)] *)
Definition connect_disposed (o : nat) (s : Slot) (w : World) : World :=
  set_disposed_slots
    (<[o := default [] (disposed_slots w !! o) ++ [s]]> (disposed_slots w)) w.

(** The state of the promise stored in [handlers[wid]], if there is one. *)
Definition handler_entry (t : Tracker) (wid : string) (w : World)
  : option PromiseState :=
  p ← handlers t w !! wid;
  pr ← promises w !! p;
  Some (pstate pr).

(** The callback of [currentChanged] given to [future.then]:
    [if (source) { manager.source = source;
                   manager.source.performInspection(); }] *)
Definition run_reaction (r : Reaction) (v : option Inspectable) (w : World)
  : World :=
  match r, v with
  | ActivateSource, Some src =>
      let w := set_manager (Manager.set_source (Some src) (manager w)) w in
      match Manager.source (manager w) with
      | Some s => out (PerformInspection s) w
      | None => out (Thrown "TypeError") w
      end
  | ActivateSource, None => w
  end.

(** [new Promise(...)]: a pending promise without reactions. *)
Definition new_promise (w : World) : nat * World :=
  let '(p, w) := fresh w in
  (p, set_promises (<[p := {| pstate := Pending; reactions := [] |}]>
                      (promises w)) w).

(** [resolve(v)] or [reject(e)] on a promise: a settled promise ignores
    it; a pending one takes the state and, when fulfilled, runs the
    reactions registered so far, in order. The reactions of a rejected
    promise have no rejection callback and do not run. JavaScript queues
    a reaction as a microtask, which runs before the next event is
    dispatched; here it runs at once. *)
Definition settle (p : nat) (st : PromiseState) (w : World) : World :=
  match promises w !! p with
  | Some {| pstate := Pending; reactions := rs |} =>
      let w := set_promises (<[p := {| pstate := st; reactions := [] |}]>
                               (promises w)) w in
      match st with
      | Fulfilled v => foldl (fun w r => run_reaction r v w) w rs
      | _ => w
      end
  | _ => w
  end.

(** [future.then(callback)]: on a pending promise the callback is
    registered; on a fulfilled one it runs with the value; on a rejected
    one it never runs. *)
Definition promise_then (p : nat) (r : Reaction) (w : World) : World :=
  match promises w !! p with
  | Some {| pstate := Pending; reactions := rs |} =>
      set_promises (<[p := {| pstate := Pending; reactions := rs ++ [r] |}]>
                      (promises w)) w
  | Some {| pstate := Fulfilled v |} => run_reaction r v w
  | Some {| pstate := Rejected _ |} => w
  | None => w
  end.

(** Modelled from the spec: [dispose()] of a handler ([handler.ts] is
    missing): idempotent; the first call emits the disposed notification,
    which reaches the manager. *)
Definition handler_dispose (h : Inspectable) (w : World) : World :=
  if decide (obj_of h ∈ disposed_objs w) then w
  else
    let w := set_disposed_objs ({[obj_of h]} ∪ disposed_objs w) w in
    set_manager (Manager.onHandlerDisposed h (manager w)) w.

(** *** The [variableinspector] plugin *)

(** [newPanel()] *)
Definition newPanel (w : World) : nat * World :=
  let '(panel, w) := fresh w in
  let w := connect_disposed panel (ClearManagerPanel panel) w in
  let w := out (TrackerAdd panel) w in
  (panel, w).

(** The [execute] function of the command [variableinspector:open]. *)
Definition execute (w : World) : World :=
  let stale :=
    match Manager.panel (manager w) with
    | Some p => bool_decide (p ∈ disposed_objs w)
    | None => true
    end in
  let w :=
    if stale then
      let '(p, w) := newPanel w in
      set_manager (Manager.set_panel (Some p) (manager w)) w
    else w in
  match Manager.panel (manager w) with
  | None => out (Thrown "TypeError") w
  | Some p =>
      let w :=
        if decide (p ∈ attached w) then w
        else out (ShellAdd p "main") (set_attached ({[p]} ∪ attached w) w) in
      let w :=
        match Manager.source (manager w) with
        | Some s => out (PerformInspection s) w
        | None => w
        end in
      out (ShellActivateById "jp-variableinspector") w
  end.

(** The slots connected to [disposed] signals. *)
Definition run_slot (s : Slot) (w : World) : World :=
  match s with
  | ClearManagerPanel panel =>
      if decide (Manager.panel (manager w) = Some panel)
      then set_manager (Manager.set_panel None (manager w)) w
      else w
  | ForgetAndDispose t pid handler =>
      let w := set_handlers t (delete pid (handlers t w)) w in
      handler_dispose handler w
  end.

(** A widget (an inspector panel, a console or a notebook panel) is
    disposed: it is flagged, leaves the trackers and the shell, and its
    [disposed] signal runs the connected slots in connection order. *)
Definition widget_disposed (o : nat) (w : World) : World :=
  if decide (o ∈ disposed_objs w) then w
  else
    let w := set_disposed_objs ({[o]} ∪ disposed_objs w) w in
    let w := set_trackers (console_tracker w ∖ {[o]})
                          (notebook_tracker w ∖ {[o]}) w in
    let w := set_attached (attached w ∖ {[o]}) w in
    let slots := default [] (disposed_slots w !! o) in
    let w := foldl (fun w s => run_slot s w) w slots in
    set_disposed_slots (delete o (disposed_slots w)) w.

Section Wiring.

(** [Languages.getScript] ([inspectorscripts.ts] is not part of the
    sources): for a kernel type, the promise it returns either resolves
    with a language model ([inl]) or rejects with a message ([inr]). *)
Context (getScript : string -> Languages.LanguageModel + string).

(** *** The [consoles] and [notebooks] plugins *)

(** The callback of [connector.ready.then], run when the connector is
    ready and reports [kerneltype]; the callbacks of [scripts.then] and
    [scripts.catch] follow at once, the promise of [getScript] being
    settled when it is returned. *)
Definition on_connector_ready (t : Tracker) (panel : Widget)
  (connector : KernelConnector) (promise : nat) (kerneltype : string)
  (w : World) : World :=
  let scripts := getScript kerneltype in
  match scripts with
  | inl result =>
      let options := {| queryCommand := Languages.queryCommand result;
                        matrixQueryCommand := Languages.matrixQueryCommand result;
                        connector := connector;
                        initScript := Languages.initScript result;
                        id := path (session connector) |} in
      let '(o, w) := fresh w in
      let handler := {| handler_obj := o; options := options |} in
      let w := set_manager (Manager.addHandler handler (manager w)) w in
      let w := connect_disposed (widget_obj panel)
                 (ForgetAndDispose t (widget_id panel) (Inspection handler))
                 w in
      set_tasks (tasks w ++ [HandlerReadyThen handler promise]) w
  | inr result =>
      match t with
      | Consoles =>
          let w := out (ConsoleLog result) w in
          let '(o, w) := fresh w in
          let handler := Dummy o connector in
          let w := connect_disposed (widget_obj panel)
                     (ForgetAndDispose t (widget_id panel) handler) w in
          settle promise (Fulfilled (Some handler)) w
      | Notebooks =>
          settle promise (Rejected result) w
      end
  end.

(** The executor that builds a connector for the panel's session and
    waits for it. *)
Definition start_connector (t : Tracker) (panel : Widget) (promise : nat)
  (w : World) : World :=
  let session := widget_session panel in
  let '(o, w) := fresh w in
  let connector := {| connector_obj := o; session := session |} in
  set_tasks (tasks w ++ [ConnectorReadyThen t panel connector promise]) w.

(** [consoles.widgetAdded.connect((sender, consolePanel) => ...)] *)
Definition consoles_widgetAdded (consolePanel : Widget) (w : World)
  : World :=
  let sid := path (widget_session consolePanel) in
  if Manager.hasHandler sid (manager w) then
    let '(p, w) := new_promise w in
    let w := settle p (Fulfilled (Inspection <$>
                                    Manager.getHandler sid (manager w))) w in
    set_handlers Consoles
      (<[widget_id consolePanel := p]> (handlers Consoles w)) w
  else
    let '(p, w) := new_promise w in
    let w := start_connector Consoles consolePanel p w in
    set_handlers Consoles
      (<[widget_id consolePanel := p]> (handlers Consoles w)) w.

(** [notebooks.widgetAdded.connect((sender, nbPanel) => ...)] *)
Definition notebooks_widgetAdded (nbPanel : Widget) (w : World) : World :=
  let '(p, w) := new_promise w in
  let w := start_connector Notebooks nbPanel p w in
  set_handlers Notebooks
    (<[widget_id nbPanel := p]> (handlers Notebooks w)) w.

Definition widgetAdded (t : Tracker) (panel : Widget) (w : World) : World :=
  match t with
  | Consoles =>
      consoles_widgetAdded panel
        (set_trackers ({[widget_obj panel]} ∪ console_tracker w)
                      (notebook_tracker w) w)
  | Notebooks =>
      notebooks_widgetAdded panel
        (set_trackers (console_tracker w)
                      ({[widget_obj panel]} ∪ notebook_tracker w) w)
  end.

(** [app.shell.currentChanged.connect((sender, args) => ...)], the same
    text in both plugins, each with its own tracker and dictionary. *)
Definition currentChanged (t : Tracker) (newValue : option Widget)
  (w : World) : World :=
  match newValue with
  | None => w
  | Some widget =>
      if decide (widget_obj widget ∈ tracker t w) then
        match handlers t w !! widget_id widget with
        | Some future => promise_then future ActivateSource w
        | None => out (Thrown "TypeError") w
        end
      else w
  end.

(** *** Events *)

(** What the host and the sessions do to the wiring. *)
Inductive Event :=
| ExecuteOpen
| WidgetAdded (t : Tracker) (panel : Widget)
| ConnectorReady (connector : nat) (kerneltype : string)
| HandlerReady (handler : nat)
| CurrentChanged (newValue : option Widget)
| WidgetDisposed (o : nat).

Definition waits_for_connector (c : nat) (k : Task) : bool :=
  match k with
  | ConnectorReadyThen _ _ connector _ =>
      bool_decide (connector_obj connector = c)
  | HandlerReadyThen _ _ => false
  end.

Definition waits_for_handler (h : nat) (k : Task) : bool :=
  match k with
  | ConnectorReadyThen _ _ _ _ => false
  | HandlerReadyThen handler _ => bool_decide (handler_obj handler = h)
  end.

(** The environment settles [connector.ready] of connector [c] (which then
    reports [kerneltype]) or [handler.ready] of handler [h]: the callbacks
    waiting for it run. *)
Definition run_connector_task (kerneltype : string) (k : Task) (w : World)
  : World :=
  match k with
  | ConnectorReadyThen t panel connector promise =>
      on_connector_ready t panel connector promise kerneltype w
  | HandlerReadyThen _ _ => w
  end.

Definition run_handler_task (k : Task) (w : World) : World :=
  match k with
  | ConnectorReadyThen _ _ _ _ => w
  | HandlerReadyThen handler promise =>
      settle promise (Fulfilled (Some (Inspection handler))) w
  end.

Definition step (e : Event) (w : World) : World :=
  match e with
  | ExecuteOpen => execute w
  | WidgetAdded t panel => widgetAdded t panel w
  | ConnectorReady c kerneltype =>
      let ready := filter (fun k => waits_for_connector c k = true) (tasks w) in
      let w := set_tasks
                 (filter (fun k => waits_for_connector c k = false) (tasks w))
                 w in
      foldl (fun w k => run_connector_task kerneltype k w) w ready
  | HandlerReady h =>
      let ready := filter (fun k => waits_for_handler h k = true) (tasks w) in
      let w := set_tasks
                 (filter (fun k => waits_for_handler h k = false) (tasks w))
                 w in
      foldl (fun w k => run_handler_task k w) w ready
  | CurrentChanged newValue =>
      currentChanged Notebooks newValue (currentChanged Consoles newValue w)
  | WidgetDisposed o => widget_disposed o w
  end.

Definition run (es : list Event) (w : World) : World :=
  foldl (fun w e => step e w) w es.

(** A panel added to tracker [t] reuses the handler the manager has for
    its session path: once the panel is added and the events [after] have
    happened, its entry in [handlers] is fulfilled with that handler. *)
Definition reuses_registered_handler (t : Tracker) (panel : Widget)
  (after : list Event) (w : World) : Prop :=
  forall h,
    Manager.getHandler (path (widget_session panel)) (manager w) = Some h ->
    handler_entry t (widget_id panel) (run (WidgetAdded t panel :: after) w)
    = Some (Fulfilled (Some (Inspection h))).

End Wiring.

(** [w'] comes after [w]: identities are only added, and a handler the
    manager holds in [w'] was either held in [w] under the same identifier
    or constructed since. *)
Definition extends (w w' : World) : Prop :=
  next_obj w <= next_obj w' /\
  forall sid h,
    _handlers (manager w') !! sid = Some h ->
    _handlers (manager w) !! sid = Some h \/
    (next_obj w <= handler_obj h /\ handler_obj h < next_obj w').

(** Every handler the manager holds was constructed before the next
    fresh identity. *)
Definition ids_allocated (w : World) : Prop :=
  forall sid h,
    _handlers (manager w) !! sid = Some h -> handler_obj h < next_obj w.

End Plugin.

(** ** Sample inputs *)

Module Samples.
Import Inspector.

(** A panel as its constructor leaves it. *)
Definition blank_panel : VariableInspectorPanel :=
  default {| _source := None;
             _table := {| tableClassName := TABLE_CLASS;
                          tHead := None; tFoot := None |};
             _kernelInfoWidget := "Loading...";
             isDisposed := false; parent := None |}
          new_panel.

(** The same panel, attached to a dock layout and bound to source 7. *)
Definition bound_panel : VariableInspectorPanel :=
  with_parent (Some []) (with_source (Some 7) blank_panel).

Definition bound_7 : Bound :=
  {| panel := bound_panel;
     connections := [(7, inspected, onInspectorUpdate_slot);
                     (7, disposed, onSourceDisposed_slot)];
     calls := [] |}.

Definition python_kernel : IVariableKernelInfo :=
  {| kernelName := Some "python3"; languageName := Some "python";
     context := None |}.

(** A scalar whose content holds the two characters backslash and n. *)
Definition var_text : IVariable :=
  {| varName := "msg"; varSize := "57"; varShape := "";
     varContent := "first\nsecond"; varType := "str"; isMatrix := false |}.

Definition var_matrix : IVariable :=
  {| varName := "grid"; varSize := "128"; varShape := "2 x 2";
     varContent := "[[1 2] [3 4]]"; varType := "ndarray";
     isMatrix := true |}.

Definition update_text : IVariableInspectorUpdate :=
  {| info := python_kernel; payload := [var_text] |}.

Definition update_two : IVariableInspectorUpdate :=
  {| info := python_kernel; payload := [var_text; var_matrix] |}.




Import Manager Plugin.

Definition python3 : Languages.LanguageModel :=
  {| Languages.initScript := "import json";
     Languages.queryCommand := "_jupyterlab_variableinspector_dict_list()";
     Languages.matrixQueryCommand :=
       "_jupyterlab_variableinspector_getmatrixcontent" |}.

(** A registry that knows one language. *)
Definition sample_getScript (lang : string)
  : Languages.LanguageModel + string :=
  if String.eqb lang "python3" then inl python3
  else inr ("Language " +:+ lang +:+ " not supported yet!").

(** Two notebook panels on the same session and a console on it. *)
Definition nb1 : Widget :=
  {| widget_obj := 100; widget_id := "nb-1";
     widget_session := {| path := "a.ipynb" |} |}.

Definition nb2 : Widget :=
  {| widget_obj := 101; widget_id := "nb-2";
     widget_session := {| path := "a.ipynb" |} |}.

Definition console1 : Widget :=
  {| widget_obj := 102; widget_id := "console-1";
     widget_session := {| path := "a.ipynb" |} |}.

(** The first notebook is open and its handler is ready. *)
Definition world_nb1 : World :=
  run sample_getScript
    [WidgetAdded Notebooks nb1; ConnectorReady 1 "python3"; HandlerReady 2]
    init.

Definition handler_nb1 : VariableInspectionHandler :=
  {| handler_obj := 2;
     options := {| queryCommand := Languages.queryCommand python3;
                   matrixQueryCommand := Languages.matrixQueryCommand python3;
                   connector := {| connector_obj := 1;
                                   session := {| path := "a.ipynb" |} |};
                   initScript := Languages.initScript python3;
                   id := "a.ipynb" |} |}.

(** The first notebook has the focus: its handler is the active one. *)
Definition world_nb1_active : World :=
  run sample_getScript [CurrentChanged (Some nb1)] world_nb1.

(** The inspector has been opened once. *)
Definition world_open : World := run sample_getScript [ExecuteOpen] init.

End Samples.

(** ** The life of a panel *)

Module PanelLife.
Import Inspector.

(** Whether a string holds the two characters backslash and n in a row,
    the pattern of the regular expression [/\\n/]. *)
Fixpoint has_backslash_n (s : string) : bool :=
  match s with
  | EmptyString => false
  | String c rest =>
      match rest with
      | String c' _ =>
          (Ascii.eqb c backslash && Ascii.eqb c' letter_n)
          || has_backslash_n rest
      | EmptyString => false
      end
  end.

(** What the result of the replacement starts with: the first character
    of the input, or the [<] of a replacement. *)
Definition head_kept (c : Ascii.ascii) (s : string) : Prop :=
  match s with
  | String d _ => d = c \/ d = Ascii.ascii_of_nat 60
  | EmptyString => False
  end.

(** A panel fresh from its constructor, connected to nothing. *)
Definition fresh_bound (p : VariableInspectorPanel) : Bound :=
  {| panel := p; connections := []; calls := [] |}.

(** [panel.dispose()] *)
Definition dispose_bound (b : Bound) : Bound :=
  perform (dispose (panel b)) b.

(** What can happen to a panel: its [source] is assigned, a source emits
    on one of its signals, the panel is disposed. *)
Inductive Op :=
| Assign (s : option ref)
| Signal (src : ref) (e : Emission)
| DisposePanel.

Definition run_op (o : Op) (b : Bound) : option Bound :=
  match o with
  | Assign s => Some (assign_source s b)
  | Signal src e => emit src e b
  | DisposePanel => Some (dispose_bound b)
  end.

Fixpoint run_ops (os : list Op) (b : Bound) : option Bound :=
  match os with
  | [] => Some b
  | o :: os' => b' ← run_op o b; run_ops os' b'
  end.

(** Updates received one after the other. *)
Definition render_all (us : list IVariableInspectorUpdate)
  (p : VariableInspectorPanel) : option VariableInspectorPanel :=
  foldl (fun acc u => acc ≫= onInspectorUpdate u) (Some p) us.

(** The data grid [_showMatrix] builds for a model. *)
Definition matrix_grid (name : string) (m : DataModel) : DataGrid :=
  {| baseRowSize := 32; baseColumnSize := 128;
     baseRowHeaderSize := 64; baseColumnHeaderSize := 32;
     model := Some m;
     title_label := "Matrix: " +:+ name;
     title_closable := true |}.

(** The models of several matrix inspections of [name], shown one after
    the other. *)
Definition show_all (name : string) (ms : list DataModel)
  (p : VariableInspectorPanel) : option VariableInspectorPanel :=
  foldl (fun acc m => acc ≫= _showMatrix m name) (Some p) ms.

(** The header row [Private.createTable] builds. *)
Definition header_row : Row :=
  {| onclick := None;
     cells := ["Name"; "Type"; "Size"; "Shape"; "Content"] |}.

(** The header rows of the table of a panel. *)
Definition head_rows (p : VariableInspectorPanel) : list Row :=
  match tHead (_table p) with
  | Some thead => rows thead
  | None => []
  end.

End PanelLife.

(** ** Worlds compared *)

Module WiringFacts.
Import Manager Plugin.

(** No promise of the world is fulfilled with [null] or [undefined]. *)
Definition never_null (w : World) : Prop :=
  forall p pr, promises w !! p = Some pr -> pstate pr <> Fulfilled None.

(** A promise as it was ([o]) and as it is ([o']): it is still there, in
    the same state, with the callbacks that were registered on it, in
    their order, followed by those registered since. *)
Definition promise_kept (o o' : option Promise) : Prop :=
  match o, o' with
  | Some pr, Some pr' =>
      pstate pr' = pstate pr /\
      exists added, reactions pr' = reactions pr ++ added
  | None, None => True
  | _, _ => False
  end.

(** [w'] differs from [w] at most in the manager's active handler, in
    callbacks added on promises and in the calls made. *)
Definition same_wiring (w w' : World) : Prop :=
  console_handlers w' = console_handlers w /\
  notebook_handlers w' = notebook_handlers w /\
  tasks w' = tasks w /\
  disposed_slots w' = disposed_slots w /\
  console_tracker w' = console_tracker w /\
  notebook_tracker w' = notebook_tracker w /\
  disposed_objs w' = disposed_objs w /\
  attached w' = attached w /\
  next_obj w' = next_obj w /\
  _handlers (manager w') = _handlers (manager w) /\
  _panel (manager w') = _panel (manager w) /\
  (forall p, promise_kept (promises w !! p) (promises w' !! p)).

(** A second console on the session of the sample notebook. *)
Definition console2 : Widget :=
  {| widget_obj := 103; widget_id := "console-2";
     widget_session := {| path := "a.ipynb" |} |}.

(** The other tracker. *)
Definition other (t : Tracker) : Tracker :=
  match t with
  | Consoles => Notebooks
  | Notebooks => Consoles
  end.

End WiringFacts.

(** * Properties of the panel *)

Module InspectorProofs.
Import Inspector.

Lemma with_row_last c l r f r' :
  f r = Some r' ->
  with_row (length l) f {| className := c; rows := l ++ [r] |}
  = Some {| className := c; rows := l ++ [r'] |}.
Proof.
  intros Hf. unfold with_row. simpl.
  rewrite list_lookup_middle by done. simpl. rewrite Hf. simpl.
  by rewrite insert_app_r_alt, Nat.sub_diag by lia.
Qed.

Lemma render_row_appends v tfoot :
  render_row v tfoot
  = Some {| className := className tfoot;
            rows := rows tfoot ++ [rendered_row v] |}.
Proof.
  unfold render_row, insertRow, rendered_row, shown_row.
  destruct (isMatrix v); simpl;
    repeat (erewrite with_row_last by reflexivity; simpl);
    reflexivity.
Qed.

Lemma render_loop_appends args todo :
  forall index tfoot,
    index + todo = length args ->
    render_loop args todo index tfoot
    = Some {| className := className tfoot;
              rows := rows tfoot ++ map rendered_row (drop index args) |}.
Proof.
  induction todo as [|todo IH]; intros index tfoot Hlen; simpl.
  - rewrite drop_ge by lia. simpl. rewrite app_nil_r. by destruct tfoot.
  - destruct (lookup_lt_is_Some_2 args index) as [v Hv]; [lia|].
    rewrite Hv. simpl. rewrite render_row_appends. simpl.
    rewrite IH by lia. simpl.
    rewrite (drop_S _ _ _ Hv). simpl.
    by rewrite <- app_assoc.
Qed.

(** C4, as claimed, fails: the content cell is not the content field when
    the field holds a backslash followed by n. For the payload [msg] with
    content [first\nsecond] the cell reads [first</br>second]. *)
Lemma onInspectorUpdate_content_not_verbatim :
  exists p',
    onInspectorUpdate Samples.update_text Samples.blank_panel = Some p' /\
    map cells (body_rows p')
    <> map (fun v => cells (shown_row (fun s => s) v))
           (payload Samples.update_text).
Proof.
  eexists. split; [reflexivity|]. vm_compute. discriminate.
Qed.

(** What an update leaves in the panel: the kernel info in the toolbar and
    a fresh table body with one rendered row per variable. *)
Lemma onInspectorUpdate_renders (u : IVariableInspectorUpdate)
  (p : VariableInspectorPanel) :
  onInspectorUpdate u p
  = Some (with_table
            {| tableClassName := tableClassName (_table p);
               tHead := tHead (_table p);
               tFoot := Some {| className := TABLE_BODY_CLASS;
                                rows := map rendered_row (payload u) |} |}
            (with_kernelInfo (kernelInfo_content (info u)) p)).
Proof.
  unfold onInspectorUpdate.
  rewrite render_loop_appends by (simpl; lia). simpl.
  by rewrite drop_0.
Qed.

(** C4, amended: on every inspected update with payload P the panel
    rebuilds its table body to exactly |P| rows, in the order of P; row i
    shows the name, type, size and shape fields of P[i] and, in the fifth
    cell, its content field in which every backslash-n pair is replaced
    by [</br>]. The header, the source and the parent are left as they
    were. *)
Theorem onInspectorUpdate_rows (u : IVariableInspectorUpdate)
  (p : VariableInspectorPanel) :
  exists p',
    onInspectorUpdate u p = Some p' /\
    length (body_rows p') = length (payload u) /\
    body_rows p' = map rendered_row (payload u) /\
    map cells (body_rows p')
    = map (fun v => [varName v; varType v; varSize v; varShape v;
                     replace_backslash_n (varContent v)]) (payload u) /\
    (className <$> tFoot (_table p')) = Some TABLE_BODY_CLASS /\
    tHead (_table p') = tHead (_table p) /\
    _source p' = _source p /\ parent p' = parent p.
Proof.
  rewrite onInspectorUpdate_renders.
  eexists. split; [reflexivity|].
  unfold body_rows. simpl.
  repeat split.
  - by rewrite length_map.
  - rewrite <- list_fmap_compose. reflexivity.
Qed.

(** C5: in the table body rendered for an update, the row of a variable
    flagged [isMatrix] carries a click action. A click calls
    [performMatrixInspection] with that variable's name on the source the
    panel has when the row is clicked (and throws when it has none). When
    the promise resolves with a model, the continuation shows it in a view
    of its own: the layout of the panel's parent, which held [lout], then
    holds [lout] followed by one new data grid whose model is the resolved
    model, titled after the variable and closable, added with mode
    split-right; the panel's table, source, toolbar and disposed flag are
    as before (and the continuation throws when the panel has no parent).
    The row of a variable that is not flagged carries no click action and
    a click on it does nothing. *)
Theorem matrix_rows_are_clickable (u : IVariableInspectorUpdate)
  (p p' : VariableInspectorPanel) (i : nat) (v : IVariable)
  (Hrender : onInspectorUpdate u p = Some p')
  (Hvar : payload u !! i = Some v) :
  exists row,
    body_rows p' !! i = Some row /\
    if isMatrix v then
      onclick row = Some (MatrixClick (varName v)) /\
      (forall q : VariableInspectorPanel,
          click row q
          = (s ← _source q;
             Some [PerformMatrixInspection s (varName v)
                     (MatrixClick (varName v))])) /\
      (forall (q : VariableInspectorPanel) (m : DataModel)
              (lout : DockLayout),
          parent q = Some lout ->
          exists q',
            matrix_resolved (MatrixClick (varName v)) m q = Some q' /\
            parent q'
            = Some (lout ++
                    [({| baseRowSize := 32; baseColumnSize := 128;
                         baseRowHeaderSize := 64;
                         baseColumnHeaderSize := 32;
                         model := Some m;
                         title_label := "Matrix: " +:+ varName v;
                         title_closable := true |}, "split-right")]) /\
            _table q' = _table q /\ _source q' = _source q /\
            _kernelInfoWidget q' = _kernelInfoWidget q /\
            isDisposed q' = isDisposed q) /\
      (forall (q : VariableInspectorPanel) (m : DataModel),
          parent q = None ->
          matrix_resolved (MatrixClick (varName v)) m q = None)
    else
      onclick row = None /\
      (forall q : VariableInspectorPanel, click row q = Some []).
Proof.
  rewrite onInspectorUpdate_renders in Hrender. injection Hrender as <-.
  exists (rendered_row v). split.
  - unfold body_rows. simpl. rewrite list_lookup_fmap, Hvar. reflexivity.
  - unfold rendered_row, shown_row, click. destruct (isMatrix v); simpl;
      [|by auto].
    split; [done|]. split; [done|]. split.
    + intros q m lout Hq. unfold _showMatrix. rewrite Hq. simpl.
      eexists. split; [reflexivity|]. by repeat split.
    + intros q m Hq. unfold _showMatrix. by rewrite Hq.
Qed.

Lemma matrix_rows_are_clickable_witness :
  exists row q',
    body_rows (default Samples.blank_panel
                 (onInspectorUpdate Samples.update_two Samples.blank_panel))
      !! 1 = Some row /\
    onclick row = Some (MatrixClick "grid") /\
    click row Samples.bound_panel
    = Some [PerformMatrixInspection 7 "grid" (MatrixClick "grid")] /\
    matrix_resolved (MatrixClick "grid") (DataModelHandle 1)
      Samples.bound_panel = Some q' /\
    parent q'
    = Some [({| baseRowSize := 32; baseColumnSize := 128;
                baseRowHeaderSize := 64; baseColumnHeaderSize := 32;
                model := Some (DataModelHandle 1);
                title_label := "Matrix: grid";
                title_closable := true |}, "split-right")].
Proof.
  destruct (matrix_rows_are_clickable Samples.update_two Samples.blank_panel
              (default Samples.blank_panel
                 (onInspectorUpdate Samples.update_two Samples.blank_panel))
              1 Samples.var_matrix eq_refl eq_refl)
    as (row & Hrow & Hclick & Hcall & Hshow & _).
  destruct (Hshow Samples.bound_panel (DataModelHandle 1) [] eq_refl)
    as (q' & Hq' & Hparent & _).
  exists row, q'. split; [exact Hrow|]. split; [exact Hclick|].
  split; [rewrite Hcall; reflexivity|]. split; [exact Hq'|exact Hparent].
Defined.

(** *** The source property *)

Lemma disconnect_absent (c : Connection) (cs : list Connection) :
  c ∉ disconnect c cs.
Proof. unfold disconnect. rewrite list_elem_of_filter. tauto. Qed.

Lemma disconnect_subset (c c' : Connection) (cs : list Connection) :
  c' ∈ disconnect c cs -> c' ∈ cs.
Proof. unfold disconnect. rewrite list_elem_of_filter. tauto. Qed.

Lemma unsubscribe_all (s : ref) :
  disconnect (s, disposed, onSourceDisposed_slot)
    (disconnect (s, inspected, onInspectorUpdate_slot)
       [(s, inspected, onInspectorUpdate_slot);
        (s, disposed, onSourceDisposed_slot)]) = [].
Proof.
  unfold disconnect.
  rewrite filter_cons, decide_False by (intros H; by apply H).
  rewrite filter_cons, decide_True by done.
  rewrite filter_nil, filter_cons, decide_False by (intros H; by apply H).
  apply filter_nil.
Qed.

Lemma subscribe_fresh (s : ref) :
  connect (s, disposed, onSourceDisposed_slot)
    (connect (s, inspected, onInspectorUpdate_slot) [])
  = [(s, inspected, onInspectorUpdate_slot);
     (s, disposed, onSourceDisposed_slot)].
Proof.
  unfold connect.
  rewrite (decide_False (P := _ ∈ [])) by apply not_elem_of_nil. simpl.
  rewrite decide_False; [done|].
  rewrite list_elem_of_singleton. discriminate.
Qed.

(** Assigning the source keeps the panel listening to its source only. *)
Lemma assign_source_subscribed (s : option ref) (b : Bound) :
  subscribed b -> subscribed (assign_source s b).
Proof.
  unfold subscribed, assign_source, perform, set_source. intros Hb.
  case_decide as Hne; simpl; [by subst s|].
  rewrite Hb.
  destruct (_source (panel b)) as [old|], s as [new|]; simpl; try done.
  - by rewrite unsubscribe_all, subscribe_fresh.
  - apply unsubscribe_all.
  - apply subscribe_fresh.
Qed.

(** A panel fresh from its constructor listens to nothing and has no
    source. *)
Lemma new_panel_subscribed (p : VariableInspectorPanel) :
  new_panel = Some p ->
  subscribed {| panel := p; connections := []; calls := [] |}.
Proof. intros Hnew. vm_compute in Hnew. by injection Hnew as <-. Qed.

(** So does every emission of a source. *)
Lemma emit_subscribed (src : ref) (e : Emission) (b b' : Bound) :
  subscribed b -> emit src e b = Some b' -> subscribed b'.
Proof.
  intros Hb. destruct e as [u|]; simpl.
  - case_decide; [|by intros [= <-]].
    rewrite onInspectorUpdate_renders. simpl. by intros [= <-].
  - case_decide; intros [= <-]; [|done].
    by apply (assign_source_subscribed None).
Qed.

(** C6: when the source the panel is bound to emits [disposed], the panel
    clears its source and disconnects its two slots from that source's
    [inspected] and [disposed] signals (and calls nothing else); a later
    [inspected] emission of that source does not reach the panel, which
    stays as it is. *)
Theorem source_disposed_unbinds (b : Bound) (s : ref)
  (Hsub : subscribed b) (Hbound : _source (panel b) = Some s) :
  exists b',
    emit s EmitDisposed b = Some b' /\
    _source (panel b') = None /\
    calls b' = calls b ++ [Disconnect s inspected onInspectorUpdate_slot;
                           Disconnect s disposed onSourceDisposed_slot] /\
    ((s, inspected, onInspectorUpdate_slot) ∉ connections b') /\
    ((s, disposed, onSourceDisposed_slot) ∉ connections b') /\
    _table (panel b') = _table (panel b) /\
    (forall u, emit s (EmitInspected u) b' = Some b').
Proof.
  assert (Hin : (s, disposed, onSourceDisposed_slot) ∈ connections b).
  { rewrite Hsub, Hbound. set_solver. }
  unfold emit at 1. rewrite decide_True by done.
  eexists. split; [reflexivity|].
  unfold onSourceDisposed, perform, set_source.
  rewrite Hbound. simpl.
  assert (Hout1 : (s, inspected, onInspectorUpdate_slot)
                  ∉ disconnect (s, disposed, onSourceDisposed_slot)
                      (disconnect (s, inspected, onInspectorUpdate_slot)
                         (connections b))).
  { intros Hc. apply disconnect_subset in Hc.
    by apply disconnect_absent in Hc. }
  repeat split; try done.
  - apply disconnect_absent.
  - intros u. simpl. by rewrite decide_False.
Qed.

Lemma source_disposed_unbinds_witness :
  exists b',
    emit 7 EmitDisposed Samples.bound_7 = Some b' /\
    _source (panel b') = None /\
    emit 7 (EmitInspected Samples.update_two) b' = Some b'.
Proof.
  destruct (source_disposed_unbinds Samples.bound_7 7 eq_refl eq_refl)
    as (b' & Hemit & Hsrc & _ & _ & _ & _ & Hquiet).
  exists b'. split; [exact Hemit|]. split; [exact Hsrc|]. apply Hquiet.
Defined.

(** C9: assigning to [source] the value it already holds changes nothing
    and makes no call; assigning a source different from the current one
    first disconnects the two slots from the old source, if there is one,
    then stores the new source, connects the two slots to it and calls
    its [performInspection], in this order. *)
Theorem set_source_same_or_rebind (p : VariableInspectorPanel) (new : ref)
  (Hdiff : _source p <> Some new) :
  set_source (_source p) p = (p, []) /\
  set_source (Some new) (with_source (Some new) p)
  = (with_source (Some new) p, []) /\
  set_source (Some new) p
  = (with_source (Some new) p,
     match _source p with
     | Some old => [Disconnect old inspected onInspectorUpdate_slot;
                    Disconnect old disposed onSourceDisposed_slot]
     | None => []
     end ++ [Connect new inspected onInspectorUpdate_slot;
             Connect new disposed onSourceDisposed_slot;
             PerformInspection new]).
Proof.
  unfold set_source. repeat split.
  - by rewrite decide_True.
  - by rewrite decide_True.
  - rewrite decide_False by done. reflexivity.
Qed.

Lemma set_source_same_or_rebind_witness :
  set_source (Some 7) Samples.bound_panel = (Samples.bound_panel, []) /\
  snd (set_source (Some 8) Samples.bound_panel)
  = [Disconnect 7 inspected onInspectorUpdate_slot;
     Disconnect 7 disposed onSourceDisposed_slot;
     Connect 8 inspected onInspectorUpdate_slot;
     Connect 8 disposed onSourceDisposed_slot;
     PerformInspection 8].
Proof.
  assert (Hdiff : _source Samples.bound_panel <> Some 8) by discriminate.
  destruct (set_source_same_or_rebind Samples.bound_panel 8 Hdiff)
    as (Hsame & _ & Hnew).
  split; [exact Hsame|]. exact (f_equal snd Hnew).
Defined.

End InspectorProofs.

(** * Properties of the inspection handler *)

Module HandlerProofs.
Import Inspector Handler.

Section PerformInspection.

Context (parse : string -> option (list IVariable)).
Context (serialize : list IVariable -> string).



End PerformInspection.



End HandlerProofs.

(** * Properties of the manager *)

Module ManagerProofs.
Import Manager.

(** The handlers registered under an identifier are those the mapping
    holds for it. *)
Lemma elem_of_registered_under (sid : string) (m : VariableInspectorManager)
  (h : VariableInspectionHandler) :
  h ∈ registered_under sid m <-> _handlers m !! sid = Some h.
Proof.
  unfold registered_under. rewrite list_elem_of_omap. split.
  - intros ([k x] & Hin & Hsome). simpl in Hsome.
    case_decide; [|done]. injection Hsome as ->. subst k.
    by apply elem_of_map_to_list in Hin.
  - intros Hl. exists (sid, h). split.
    + by apply elem_of_map_to_list.
    + simpl. by rewrite decide_True.
Qed.

Lemma registered_under_length (sid : string)
  (hs : gmap string VariableInspectionHandler) :
  length (omap (fun kv : string * VariableInspectionHandler =>
                  if decide (kv.1 = sid) then Some kv.2 else None)
               (map_to_list hs))
  = match hs !! sid with Some _ => 1 | None => 0 end.
Proof.
  induction hs as [|k x hs Hfresh IH] using map_ind.
  - by rewrite map_to_list_empty.
  - rewrite (Permutation_length
               (omap_Permutation _ _ _ (map_to_list_insert hs k x Hfresh))).
    cbn [omap list_omap fst snd]. destruct (decide (k = sid)) as [->|Hne].
    + rewrite lookup_insert_eq. simpl. rewrite IH, Hfresh. done.
    + rewrite lookup_insert_ne by done. by rewrite IH.
Qed.

Lemma registered_under_lookup (sid : string) (m : VariableInspectorManager) :
  registered_under sid m
  = match _handlers m !! sid with Some h => [h] | None => [] end.
Proof.
  pose proof (registered_under_length sid (_handlers m)) as Hlen.
  fold (registered_under sid m) in Hlen.
  destruct (_handlers m !! sid) as [h|] eqn:Hl.
  - destruct (registered_under sid m) as [|x [|y l]] eqn:Hr; try done.
    assert (Hx : x ∈ registered_under sid m) by (rewrite Hr; set_solver).
    apply elem_of_registered_under in Hx. congruence.
  - by destruct (registered_under sid m).
Qed.

End ManagerProofs.

(** * Properties of the host wiring *)

Module PluginProofs.
Import Manager Plugin ManagerProofs.

(** The reactions of a promise fulfilled with [h]: each one makes [h] the
    active handler and calls its [performInspection]. *)
Lemma run_reactions (h : Inspectable) (rs : list Reaction) :
  forall w,
    let w' := foldl (fun w r => run_reaction r (Some h) w) w rs in
    output w' = output w ++ replicate (length rs) (PerformInspection h) /\
    (rs <> [] -> Manager.source (manager w') = Some h) /\
    promises w' = promises w /\
    handlers Consoles w' = handlers Consoles w /\
    handlers Notebooks w' = handlers Notebooks w.
Proof.
  induction rs as [|[] rs IH]; intros w; simpl.
  - rewrite app_nil_r. by repeat split.
  - destruct (IH (out (PerformInspection h)
                    (set_manager (Manager.set_source (Some h) (manager w)) w)))
      as (Hout & Hsrc & Hpr & Hc & Hn).
    simpl in *. rewrite Hout, Hpr, Hc, Hn.
    repeat split; try done.
    + by rewrite <- app_assoc.
    + intros _. destruct rs as [|r rs']; [done|]. by apply Hsrc.
Qed.

(** A promise fulfilled with [null] runs callbacks that do nothing. *)
Lemma run_reactions_null (rs : list Reaction) (w : World) :
  foldl (fun w r => run_reaction r None w) w rs = w.
Proof. induction rs as [|[] rs IH]; simpl; [done|apply IH]. Qed.

Lemma settle_pending_state (p : nat) (st : PromiseState) (w : World)
  (rs : list Reaction) :
  promises w !! p = Some {| pstate := Pending; reactions := rs |} ->
  pstate <$> promises (settle p st w) !! p = Some st.
Proof.
  intros Hp. unfold settle. rewrite Hp.
  destruct st as [|[h|]|e]; simpl; try by rewrite lookup_insert_eq.
  - destruct (run_reactions h rs
                (set_promises (<[p:={| pstate := Fulfilled (Some h);
                                       reactions := [] |}]> (promises w)) w))
      as (_ & _ & -> & _).
    simpl. by rewrite lookup_insert_eq.
  - rewrite run_reactions_null. simpl. by rewrite lookup_insert_eq.
Qed.

(** C1, on the code: when the lookup of the language script rejects with
    [msg], the console wiring fulfils the pending entry with a dummy
    handler built on the connector, while the notebook wiring rejects the
    pending entry with [msg] and builds no dummy handler. *)
Theorem unsupported_language_settles
  (getScript : string -> Languages.LanguageModel + string)
  (kerneltype msg : string) (panel : Widget) (c : KernelConnector)
  (future : nat) (rs : list Reaction) (w : World)
  (Hreject : getScript kerneltype = inr msg)
  (Hpending : promises w !! future
              = Some {| pstate := Pending; reactions := rs |}) :
  pstate <$> promises (on_connector_ready getScript Consoles panel c future
                         kerneltype w) !! future
  = Some (Fulfilled (Some (Dummy (next_obj w) c))) /\
  pstate <$> promises (on_connector_ready getScript Notebooks panel c future
                         kerneltype w) !! future
  = Some (Rejected msg) /\
  next_obj (on_connector_ready getScript Notebooks panel c future
              kerneltype w) = next_obj w.
Proof.
  unfold on_connector_ready. rewrite Hreject. simpl. repeat split.
  - by eapply settle_pending_state.
  - by eapply settle_pending_state.
  - unfold settle. by rewrite Hpending.
Qed.

Lemma unsupported_language_settles_witness :
  pstate <$> promises (on_connector_ready Samples.sample_getScript Notebooks
                         Samples.nb1
                         {| connector_obj := 1;
                            session := {| path := "a.ipynb" |} |}
                         0 "cobol"
                         (widgetAdded Notebooks Samples.nb1 init)) !! 0
  = Some (Rejected "Language cobol not supported yet!").
Proof.
  exact (proj1 (proj2 (unsupported_language_settles
                         Samples.sample_getScript "cobol" _ Samples.nb1
                         {| connector_obj := 1;
                            session := {| path := "a.ipynb" |} |}
                         0 [] (widgetAdded Notebooks Samples.nb1 init)
                         eq_refl eq_refl))).
Defined.

(** The same, from the first event on: a console and a notebook on a
    kernel whose language has no script. *)
Example unsupported_language_runs :
  handler_entry Consoles "console-1"
    (run Samples.sample_getScript
       [WidgetAdded Consoles Samples.console1; ConnectorReady 1 "cobol"] init)
  = Some (Fulfilled (Some (Dummy 2 {| connector_obj := 1;
                                      session := {| path := "a.ipynb" |} |})))
  /\
  handler_entry Notebooks "nb-1"
    (run Samples.sample_getScript
       [WidgetAdded Notebooks Samples.nb1; ConnectorReady 1 "cobol"] init)
  = Some (Rejected "Language cobol not supported yet!").
Proof. split; vm_compute; reflexivity. Qed.

(** *** Focus changes *)

(** C3: when the focus moves to a widget of a tracker whose entry in
    [handlers] is a promise fulfilled with a handler [h], the wiring makes
    [h] the manager's active handler and then calls [performInspection] on
    the active handler, which is [h]; when the promise is still pending,
    the same happens as soon as it is fulfilled with [h], once for every
    focus change that waited for it. *)
Theorem focus_change_activates_handler (t : Tracker) (widget : Widget)
  (future : nat) (h : Inspectable) (rs : list Reaction) (w : World)
  (Htracked : widget_obj widget ∈ tracker t w)
  (Hentry : handlers t w !! widget_id widget = Some future) :
  (promises w !! future
   = Some {| pstate := Fulfilled (Some h); reactions := rs |} ->
   currentChanged t (Some widget) w
   = out (PerformInspection h)
       (set_manager (Manager.set_source (Some h) (manager w)) w)) /\
  (promises w !! future = Some {| pstate := Pending; reactions := rs |} ->
   let w' := settle future (Fulfilled (Some h))
               (currentChanged t (Some widget) w) in
   Manager.source (manager w') = Some h /\
   output w'
   = output w ++ replicate (S (length rs)) (PerformInspection h)).
Proof.
  unfold currentChanged. rewrite decide_True by done. rewrite Hentry.
  unfold promise_then. split; intros Hp; rewrite Hp; simpl; [done|].
  unfold settle. simpl. rewrite lookup_insert_eq. simpl.
  match goal with
  | |- context [foldl _ ?w0 _] =>
      destruct (run_reactions h (rs ++ [ActivateSource]) w0)
        as (Hout & Hsrc & _)
  end.
  simpl in Hout. rewrite Hout, length_app. simpl.
  split.
  - apply Hsrc. by destruct rs.
  - by rewrite Nat.add_1_r.
Qed.

Lemma focus_change_activates_handler_witness :
  currentChanged Notebooks (Some Samples.nb1) Samples.world_nb1
  = out (PerformInspection (Inspection Samples.handler_nb1))
      (set_manager
         (Manager.set_source (Some (Inspection Samples.handler_nb1))
            (manager Samples.world_nb1))
         Samples.world_nb1).
Proof.
  assert (Htracked : widget_obj Samples.nb1
                     ∈ tracker Notebooks Samples.world_nb1)
    by (vm_compute; set_solver).
  exact (proj1 (focus_change_activates_handler Notebooks Samples.nb1 0
                  (Inspection Samples.handler_nb1) [] Samples.world_nb1
                  Htracked eq_refl) eq_refl).
Defined.

(** *** Disposal *)

(** C8: when a live handler is disposed, the manager's active-handler
    reference is cleared if it pointed at that handler and is unchanged if
    it pointed at another handler or at none; the manager's panel is
    untouched, and disposing the handler again changes nothing. *)
Theorem handler_dispose_clears_active (h : Inspectable) (w : World)
  (Hlive : obj_of h ∉ disposed_objs w) :
  let w' := handler_dispose h w in
  (Manager.source (manager w) = Some h ->
   Manager.source (manager w') = None) /\
  (Manager.source (manager w) <> Some h ->
   Manager.source (manager w') = Manager.source (manager w)) /\
  Manager.panel (manager w') = Manager.panel (manager w) /\
  handler_dispose h w' = w'.
Proof.
  unfold handler_dispose. rewrite decide_False by done. simpl.
  unfold Manager.source. repeat split.
  - intros Hsrc. by rewrite decide_True.
  - intros Hsrc. by rewrite decide_False.
  - rewrite decide_True; [done|set_solver].
Qed.

Lemma handler_dispose_clears_active_witness :
  Manager.source (manager Samples.world_nb1_active)
  = Some (Inspection Samples.handler_nb1) /\
  Manager.source
    (manager (handler_dispose (Inspection Samples.handler_nb1)
                Samples.world_nb1_active)) = None.
Proof.
  assert (Hlive : obj_of (Inspection Samples.handler_nb1)
                  ∉ disposed_objs Samples.world_nb1_active)
    by (vm_compute; set_solver).
  split; [reflexivity|].
  exact (proj1 (handler_dispose_clears_active
                  (Inspection Samples.handler_nb1)
                  Samples.world_nb1_active Hlive) eq_refl).
Defined.

(** The slot the wiring connects to a console or notebook panel: when the
    panel is disposed, its entry in [handlers] is deleted and its handler
    disposed, which clears the manager's active handler if it is that
    handler. *)
Lemma panel_disposed_disposes_handler (t : Tracker) (o : nat)
  (pid : string) (h : Inspectable) (w : World) :
  o ∉ disposed_objs w ->
  obj_of h ∉ disposed_objs w ->
  obj_of h <> o ->
  disposed_slots w !! o = Some [ForgetAndDispose t pid h] ->
  let w' := widget_disposed o w in
  handlers t w' !! pid = None /\
  obj_of h ∈ disposed_objs w' /\
  Manager.source (manager w')
  = if decide (Manager.source (manager w) = Some h) then None
    else Manager.source (manager w).
Proof.
  intros Hlive Hh Hne Hslot. unfold widget_disposed.
  rewrite decide_False by done. simpl. rewrite Hslot. simpl.
  unfold handler_dispose. simpl.
  rewrite decide_False
    by (apply not_elem_of_union; split;
        [by apply not_elem_of_singleton|done]).
  simpl. repeat split.
  - destruct t; simpl; apply lookup_delete_eq.
  - apply elem_of_union_l. by apply elem_of_singleton.
Qed.

(** [newPanel] connects to the new panel's [disposed] signal the slot
    that clears the manager's reference to that very panel. *)
Lemma newPanel_slot (w : World) :
  disposed_slots w !! next_obj w = None ->
  disposed_slots (newPanel w).2 !! (newPanel w).1
  = Some [ClearManagerPanel (newPanel w).1].
Proof.
  intros Hnone. unfold newPanel, connect_disposed. simpl.
  rewrite lookup_insert_eq, Hnone. reflexivity.
Qed.

(** C10: when an inspector panel created by [newPanel] is disposed, the
    manager's panel reference is set to null if it is that very panel, and
    the manager is left as it is if its panel reference is another panel
    or null. *)
Theorem panel_disposed_clears_manager_panel (panel : nat) (w : World)
  (Hlive : panel ∉ disposed_objs w)
  (Hslot : disposed_slots w !! panel = Some [ClearManagerPanel panel]) :
  let w' := widget_disposed panel w in
  (Manager.panel (manager w) = Some panel ->
   manager w' = Manager.set_panel None (manager w)) /\
  (Manager.panel (manager w) <> Some panel -> manager w' = manager w).
Proof.
  unfold widget_disposed. rewrite decide_False by done. simpl.
  rewrite Hslot. simpl. split; intros Hp.
  - by rewrite decide_True.
  - by rewrite decide_False.
Qed.

Lemma panel_disposed_clears_manager_panel_witness :
  Manager.panel (manager Samples.world_open) = Some 0 /\
  Manager.panel (manager (widget_disposed 0 Samples.world_open)) = None.
Proof.
  assert (Hlive : 0 ∉ disposed_objs Samples.world_open)
    by (vm_compute; set_solver).
  split; [reflexivity|].
  exact (f_equal Manager.panel
           (proj1 (panel_disposed_clears_manager_panel 0 Samples.world_open
                     Hlive eq_refl) eq_refl)).
Defined.

(** *** Identities are fresh *)

Lemma extends_refl (w : World) : extends w w.
Proof. split; [lia|]. intros sid h Hh. by left. Qed.

Lemma extends_trans (w1 w2 w3 : World) :
  extends w1 w2 -> extends w2 w3 -> extends w1 w3.
Proof.
  intros [Hn12 Hh12] [Hn23 Hh23]. split; [lia|].
  intros sid h Hh. destruct (Hh23 sid h Hh) as [Hh2|Hnew].
  - destruct (Hh12 sid h Hh2) as [Hh1|Hnew]; [by left|right; lia].
  - right. lia.
Qed.

(** A step that keeps the next identity and the registered handlers. *)
Lemma extends_same (w w' : World) :
  next_obj w' = next_obj w ->
  _handlers (manager w') = _handlers (manager w) ->
  extends w w'.
Proof.
  intros Hn Hh. split; [lia|]. intros sid h. rewrite Hh. by left.
Qed.

(** A step that may take identities and keeps the registered handlers. *)
Lemma extends_keep (w w' : World) :
  next_obj w <= next_obj w' ->
  _handlers (manager w') = _handlers (manager w) ->
  extends w w'.
Proof.
  intros Hn Hh. split; [lia|]. intros sid h. rewrite Hh. by left.
Qed.

Lemma extends_foldl {A} (f : World -> A -> World) (l : list A) :
  (forall w x, extends w (f w x)) ->
  forall w, extends w (foldl f w l).
Proof.
  intros Hf. induction l as [|x l IH]; intros w; simpl.
  - apply extends_refl.
  - eapply extends_trans; [apply Hf|apply IH].
Qed.

Lemma extends_allocated (w w' : World) :
  extends w w' -> ids_allocated w -> ids_allocated w'.
Proof.
  intros [Hn Hh] Hw sid h Hl.
  destruct (Hh sid h Hl) as [Hold|Hnew]; [|lia].
  specialize (Hw sid h Hold). lia.
Qed.

Lemma run_reaction_extends (r : Reaction) (v : option Inspectable)
  (w : World) : extends w (run_reaction r v w).
Proof. destruct r, v; simpl; by apply extends_same. Qed.

Lemma settle_extends (p : nat) (st : PromiseState) (w : World) :
  extends w (settle p st w).
Proof.
  unfold settle.
  destruct (promises w !! p) as [[[| |] rs]|]; try apply extends_refl.
  destruct st; try by apply extends_same.
  eapply extends_trans; [|apply extends_foldl; intros; apply run_reaction_extends].
  by apply extends_same.
Qed.

Lemma promise_then_extends (p : nat) (r : Reaction) (w : World) :
  extends w (promise_then p r w).
Proof.
  unfold promise_then.
  destruct (promises w !! p) as [[[| |] rs]|]; try apply extends_refl.
  - by apply extends_same.
  - apply run_reaction_extends.
Qed.

Lemma handler_dispose_extends (h : Inspectable) (w : World) :
  extends w (handler_dispose h w).
Proof.
  unfold handler_dispose. case_decide; [apply extends_refl|].
  split; [simpl; lia|]. intros sid h0. simpl.
  destruct h as [vh|]; [|by left]. case_decide; [|by left].
  intros Hl. left. apply lookup_delete_Some in Hl. tauto.
Qed.

Lemma run_slot_extends (s : Slot) (w : World) : extends w (run_slot s w).
Proof.
  destruct s as [panel|t pid handler]; simpl.
  - case_decide; [by apply extends_same|apply extends_refl].
  - eapply extends_trans; [|apply handler_dispose_extends].
    by apply extends_same.
Qed.

Lemma widget_disposed_extends (o : nat) (w : World) :
  extends w (widget_disposed o w).
Proof.
  unfold widget_disposed. case_decide; [apply extends_refl|].
  eapply extends_trans; [|by apply extends_same].
  eapply extends_trans;
    [|apply (extends_foldl (fun w s => run_slot s w));
      intros; apply run_slot_extends].
  by apply extends_same.
Qed.

Lemma execute_extends (w : World) : extends w (execute w).
Proof.
  apply extends_keep; unfold execute, newPanel, connect_disposed, fresh,
    Manager.panel, Manager.source, Manager.set_panel;
    repeat (case_match || case_decide); simplify_eq/=; try lia; done.
Qed.

Lemma on_connector_ready_extends
  (getScript : string -> Languages.LanguageModel + string) (t : Tracker)
  (panel : Widget) (c : KernelConnector) (p : nat) (kerneltype : string)
  (w : World) :
  extends w (on_connector_ready getScript t panel c p kerneltype w).
Proof.
  unfold on_connector_ready. destruct (getScript kerneltype) as [result|msg].
  - split; [simpl; lia|]. intros sid h. simpl.
    destruct (decide (path (session c) = sid)) as [<-|Hne].
    + rewrite lookup_insert_eq. intros [= <-]. right. simpl. lia.
    + rewrite lookup_insert_ne by done. by left.
  - destruct t; simpl.
    + eapply extends_trans; [|apply settle_extends].
      split; [simpl; lia|]. intros sid h. simpl. by left.
    + apply settle_extends.
Qed.

Lemma widgetAdded_extends (t : Tracker) (panel : Widget) (w : World) :
  extends w (widgetAdded t panel w).
Proof.
  destruct t; simpl.
  - unfold consoles_widgetAdded. simpl.
    destruct (Manager.hasHandler _ _); simpl.
    + eapply extends_trans; [|by apply extends_same].
      eapply extends_trans; [|apply settle_extends].
      split; [simpl; lia|]. intros sid h. simpl. by left.
    + split; [simpl; lia|]. intros sid h. simpl. by left.
  - split; [simpl; lia|]. intros sid h. simpl. by left.
Qed.

Lemma currentChanged_extends (t : Tracker) (newValue : option Widget)
  (w : World) : extends w (currentChanged t newValue w).
Proof.
  unfold currentChanged. destruct newValue as [widget|]; [|apply extends_refl].
  case_decide; [|apply extends_refl].
  destruct (handlers t w !! widget_id widget).
  - apply promise_then_extends.
  - by apply extends_same.
Qed.

Lemma step_extends (getScript : string -> Languages.LanguageModel + string)
  (e : Event) (w : World) : extends w (step getScript e w).
Proof.
  destruct e as [|t panel|c kt|h|newValue|o]; simpl.
  - apply execute_extends.
  - apply widgetAdded_extends.
  - apply (extends_trans _ (set_tasks
                               (filter (fun k => waits_for_connector c k = false)
                                  (tasks w)) w));
      [by apply extends_same|].
    apply (extends_foldl (fun w k => run_connector_task getScript kt k w)).
    intros w0 [t panel connector p|]; simpl;
      [apply on_connector_ready_extends|apply extends_refl].
  - apply (extends_trans _ (set_tasks
                               (filter (fun k => waits_for_handler h k = false)
                                  (tasks w)) w));
      [by apply extends_same|].
    apply (extends_foldl (fun w k => run_handler_task k w)).
    intros w0 [|handler p]; simpl;
      [apply extends_refl|apply settle_extends].
  - eapply extends_trans; apply currentChanged_extends.
  - apply widget_disposed_extends.
Qed.

(** In every world reached from the initial one, the handlers the manager
    holds have identities below the next fresh one. *)
Lemma run_allocated (getScript : string -> Languages.LanguageModel + string)
  (es : list Event) :
  ids_allocated (run getScript es init).
Proof.
  apply (extends_allocated init).
  - apply (extends_foldl (fun w e => step getScript e w)).
    intros; apply step_extends.
  - intros sid h Hl. simpl in Hl. by rewrite lookup_empty in Hl.
Qed.

(** *** One handler per session *)

(** The console wiring, when the manager has a handler for the session
    path of the console: the entry is fulfilled with that handler; no
    connector is built, nothing is awaited, the manager is untouched. *)
Lemma consoles_widgetAdded_reuses (consolePanel : Widget)
  (h : VariableInspectionHandler) (w : World) :
  Manager.getHandler (path (widget_session consolePanel)) (manager w)
  = Some h ->
  let w' := consoles_widgetAdded consolePanel w in
  handler_entry Consoles (widget_id consolePanel) w'
  = Some (Fulfilled (Some (Inspection h))) /\
  tasks w' = tasks w /\ manager w' = manager w /\
  next_obj w' = S (next_obj w).
Proof.
  intros Hreg. unfold consoles_widgetAdded, Manager.hasHandler.
  unfold Manager.getHandler in Hreg.
  rewrite bool_decide_eq_true_2 by (rewrite Hreg; eauto).
  unfold Manager.getHandler, new_promise, settle, handler_entry. simpl.
  rewrite lookup_insert_eq. simpl. rewrite Hreg. simpl.
  rewrite lookup_insert_eq. simpl. by rewrite lookup_insert_eq.
Qed.

(** The notebook wiring never looks at the manager: it builds a connector
    and waits for it. *)
Lemma notebooks_widgetAdded_starts (nbPanel : Widget) (w : World) :
  tasks (notebooks_widgetAdded nbPanel w)
  = tasks w ++ [ConnectorReadyThen Notebooks nbPanel
                  {| connector_obj := S (next_obj w);
                     session := widget_session nbPanel |}
                  (next_obj w)].
Proof. reflexivity. Qed.

(** With a script for the kernel type, a handler is constructed and
    registered under the session path, whatever was registered there. *)
Lemma on_connector_ready_registers
  (getScript : string -> Languages.LanguageModel + string) (t : Tracker)
  (panel : Widget) (c : KernelConnector) (future : nat)
  (kerneltype : string) (result : Languages.LanguageModel) (w : World) :
  getScript kerneltype = inl result ->
  manager (on_connector_ready getScript t panel c future kerneltype w)
  = Manager.addHandler
      {| handler_obj := next_obj w;
         options := {| queryCommand := Languages.queryCommand result;
                       matrixQueryCommand := Languages.matrixQueryCommand result;
                       connector := c;
                       initScript := Languages.initScript result;
                       id := path (session c) |} |}
      (manager w).
Proof. intros Hs. unfold on_connector_ready. by rewrite Hs. Qed.

(** The registry of the manager: at most one handler is registered under
    an identifier; registering a handler replaces the one registered
    under its identifier and leaves the other identifiers alone. *)
Lemma registry_one_per_identifier (m : VariableInspectorManager)
  (sid : string) (h : VariableInspectionHandler) :
  length (registered_under sid m) <= 1 /\
  registered_under (id (options h)) (Manager.addHandler h m) = [h] /\
  (sid <> id (options h) ->
   registered_under sid (Manager.addHandler h m) = registered_under sid m).
Proof.
  repeat split.
  - rewrite registered_under_lookup. destruct (_ !! _); simpl; lia.
  - rewrite registered_under_lookup. simpl. by rewrite lookup_insert_eq.
  - intros Hne. rewrite !registered_under_lookup. simpl.
    by rewrite lookup_insert_ne.
Qed.

End PluginProofs.

(** * Further properties of the panel *)

Module PanelLifeProofs.
Import Inspector PanelLife.

(** *** The replacement in the content cell *)

Lemma replace_head (c : Ascii.ascii) (rest : string) :
  head_kept c (replace_backslash_n (String c rest)).
Proof.
  simpl. destruct rest as [|c' rest']; simpl; [by left|].
  destruct (Ascii.eqb c backslash && Ascii.eqb c' letter_n)%bool; simpl;
    [by right|by left].
Qed.

Lemma has_backslash_n_cons (c : Ascii.ascii) (s : string) :
  has_backslash_n (String c s)
  = match s with
    | String c' _ =>
        (Ascii.eqb c backslash && Ascii.eqb c' letter_n)
        || has_backslash_n s
    | EmptyString => false
    end.
Proof. reflexivity. Qed.

Lemma replace_backslash_n_cons (c c' : Ascii.ascii) (rest : string) :
  replace_backslash_n (String c (String c' rest))
  = if (Ascii.eqb c backslash && Ascii.eqb c' letter_n)%bool
    then "</br>" +:+ replace_backslash_n rest
    else String c (replace_backslash_n (String c' rest)).
Proof. reflexivity. Qed.

Lemma has_backslash_n_br (t : string) :
  has_backslash_n ("</br>" +:+ t) = has_backslash_n t.
Proof. by destruct t. Qed.

Lemma replace_clean_len (n : nat) :
  forall s, String.length s <= n ->
            has_backslash_n (replace_backslash_n s) = false.
Proof.
  induction n as [|n IH]; intros s Hlen.
  - destruct s; [done|simpl in Hlen; lia].
  - destruct s as [|c [|c' rest]]; [done|done|].
    rewrite replace_backslash_n_cons.
    destruct (Ascii.eqb c backslash && Ascii.eqb c' letter_n)%bool eqn:Hpair.
    + rewrite has_backslash_n_br. apply IH. simpl in Hlen. lia.
    + assert (Hrest : has_backslash_n
                        (replace_backslash_n (String c' rest)) = false)
        by (apply IH; simpl in Hlen |- *; lia).
      pose proof (replace_head c' rest) as Hhead.
      revert Hrest Hhead. generalize (replace_backslash_n (String c' rest)).
      intros t Ht Hhead. destruct t as [|d t']; [done|].
      change (has_backslash_n (String c (String d t')))
        with ((Ascii.eqb c backslash && Ascii.eqb d letter_n)
              || has_backslash_n (String d t')).
      rewrite Ht, orb_false_r.
      simpl in Hhead. apply andb_false_iff.
      apply andb_false_iff in Hpair.
      destruct Hhead as [->| ->]; [done|].
      right. by vm_compute.
Qed.

Lemma replace_fixed_len (n : nat) :
  forall s, String.length s <= n ->
            has_backslash_n s = false -> replace_backslash_n s = s.
Proof.
  induction n as [|n IH]; intros s Hlen Hs.
  - destruct s; [done|simpl in Hlen; lia].
  - destruct s as [|c [|c' rest]]; [done|done|].
    rewrite has_backslash_n_cons in Hs. apply orb_false_iff in Hs.
    destruct Hs as [Hpair Hrest].
    rewrite replace_backslash_n_cons, Hpair.
    f_equal. apply IH; [simpl in Hlen |- *; lia|done].
Qed.

(** X1: the replacement leaves no backslash-n pair behind, so replacing a
    second time changes nothing. *)
Theorem replace_backslash_n_clean (s : string) :
  has_backslash_n (replace_backslash_n s) = false /\
  replace_backslash_n (replace_backslash_n s) = replace_backslash_n s.
Proof.
  assert (Hclean : has_backslash_n (replace_backslash_n s) = false)
    by (by eapply replace_clean_len).
  split; [done|]. by eapply replace_fixed_len.
Qed.

(** X2: the replacement returns its argument unchanged exactly when the
    argument holds no backslash-n pair. *)
Theorem replace_backslash_n_fixed (s : string) :
  replace_backslash_n s = s <-> has_backslash_n s = false.
Proof.
  split.
  - intros Heq. rewrite <- Heq. by eapply replace_clean_len.
  - by eapply replace_fixed_len.
Qed.

Lemma replace_backslash_n_fixed_witness :
  replace_backslash_n "[[1 2] [3 4]]" = "[[1 2] [3 4]]".
Proof.
  exact (proj2 (replace_backslash_n_fixed "[[1 2] [3 4]]") eq_refl).
Defined.

(** *** Rendering *)

(** X3: what the panel shows depends on the last update only: an update
    received after another leaves the panel as if it had been received
    alone (the table body is rebuilt, not extended), so receiving the same
    update twice equals receiving it once. *)
Theorem last_update_wins (u1 u2 : IVariableInspectorUpdate)
  (p : VariableInspectorPanel) :
  (onInspectorUpdate u1 p ≫= onInspectorUpdate u2) = onInspectorUpdate u2 p
  /\
  (onInspectorUpdate u1 p ≫= onInspectorUpdate u1) = onInspectorUpdate u1 p.
Proof.
  rewrite !InspectorProofs.onInspectorUpdate_renders. simpl.
  rewrite !InspectorProofs.onInspectorUpdate_renders. done.
Qed.

Lemma rendered_row_cells (v : IVariable) :
  length (cells (rendered_row v)) = 5.
Proof. reflexivity. Qed.

Lemma render_all_keeps_header (us : list IVariableInspectorUpdate) :
  forall p,
    Forall (fun r => length (cells r) = 5) (body_rows p) ->
    exists p',
      render_all us p = Some p' /\
      head_rows p' = head_rows p /\
      Forall (fun r => length (cells r) = 5) (body_rows p').
Proof.
  unfold render_all.
  induction us as [|u us IH]; intros p Hp; simpl; [by eexists|].
  rewrite InspectorProofs.onInspectorUpdate_renders.
  match goal with
  | |- context [foldl _ (Some ?q) us] => destruct (IH q) as (p' & Hr & Hh & Hb)
  end.
  - unfold body_rows. simpl. apply Forall_forall.
    intros r Hr. apply list_elem_of_fmap in Hr as (v & -> & _).
    apply rendered_row_cells.
  - exists p'. by rewrite Hr.
Qed.

(** X4: a panel built by the constructor has the header Name, Type, Size,
    Shape, Content; whatever updates it then receives, every update
    renders, the header stays, and every row of the table body has five
    cells, one under each header cell. *)
Theorem columns_stay_aligned (us : list IVariableInspectorUpdate)
  (p0 : VariableInspectorPanel) (Hnew : new_panel = Some p0) :
  exists p,
    render_all us p0 = Some p /\
    head_rows p = [header_row] /\
    Forall (fun r => length (cells r) = length (cells header_row))
           (body_rows p).
Proof.
  vm_compute in Hnew. injection Hnew as <-.
  match goal with
  | |- context [render_all us ?q] =>
      destruct (render_all_keeps_header us q) as (p & Hr & Hh & Hb)
  end.
  - by apply Forall_nil.
  - exists p. by rewrite Hr, Hh.
Qed.

Lemma columns_stay_aligned_witness :
  exists p,
    render_all [Samples.update_text; Samples.update_two] Samples.blank_panel
    = Some p /\
    head_rows p = [header_row] /\
    Forall (fun r => length (cells r) = length (cells header_row))
           (body_rows p).
Proof.
  exact (columns_stay_aligned [Samples.update_text; Samples.update_two]
           Samples.blank_panel eq_refl).
Defined.

(** *** Sources over time *)

Lemma dispose_bound_subscribed (b : Bound) :
  subscribed b -> subscribed (dispose_bound b).
Proof.
  intros Hb. unfold dispose_bound, dispose.
  destruct (isDisposed (panel b)) eqn:Hd.
  - unfold perform. simpl. by destruct b.
  - pose proof (InspectorProofs.assign_source_subscribed None b Hb) as Hs.
    unfold assign_source, perform, subscribed in Hs |- *.
    destruct (set_source None (panel b)) as [p es]. simpl in *.
    by rewrite foldl_app.
Qed.

Lemma run_op_subscribed (o : Op) (b : Bound) :
  subscribed b -> exists b', run_op o b = Some b' /\ subscribed b'.
Proof.
  intros Hb. destruct o as [s|src e|]; simpl.
  - eexists. split; [done|]. by apply InspectorProofs.assign_source_subscribed.
  - destruct e as [u|]; simpl.
    + case_decide; [|by eexists].
      rewrite InspectorProofs.onInspectorUpdate_renders. simpl.
      by eexists.
    + case_decide; [|by eexists].
      eexists. split; [done|].
      by apply (InspectorProofs.assign_source_subscribed None).
  - eexists. split; [done|]. by apply dispose_bound_subscribed.
Qed.

(** X5: whatever happens to a panel (assignments of its source,
    emissions of any source on either signal, disposal), every step
    succeeds and the panel stays connected to the two signals of its
    current source and to nothing else, to nothing at all when it has no
    source. *)
Theorem panel_listens_to_its_source_only (os : list Op) (b : Bound)
  (Hsub : subscribed b) :
  exists b', run_ops os b = Some b' /\ subscribed b'.
Proof.
  revert b Hsub. induction os as [|o os IH]; intros b Hsub; simpl.
  - by eexists.
  - destruct (run_op_subscribed o b Hsub) as (b1 & -> & Hb1). simpl.
    by apply IH.
Qed.

Lemma panel_listens_to_its_source_only_witness :
  exists b',
    run_ops [Assign (Some 7); Signal 7 (EmitInspected Samples.update_two);
             Assign (Some 8); Signal 7 EmitDisposed; DisposePanel]
      (fresh_bound Samples.blank_panel) = Some b' /\
    subscribed b'.
Proof.
  exact (panel_listens_to_its_source_only
           [Assign (Some 7); Signal 7 (EmitInspected Samples.update_two);
            Assign (Some 8); Signal 7 EmitDisposed; DisposePanel]
           (fresh_bound Samples.blank_panel) eq_refl).
Defined.

(** X6: a panel hears its current source only. What a source other
    than the current one emits leaves the panel as it is: its update is
    not rendered and its disposal does not clear the panel's source. And
    once the source property has been assigned anything but [src] (another
    source or null), nothing [src] emits reaches the panel any more, also
    when [src] was the panel's source until then. *)
Theorem other_sources_are_ignored (b : Bound) (src : ref) (e : Emission)
  (Hsub : subscribed b) :
  (_source (panel b) <> Some src -> emit src e b = Some b) /\
  (forall s : option ref,
      s <> Some src ->
      _source (panel (assign_source s b)) = s /\
      emit src e (assign_source s b) = Some (assign_source s b)).
Proof.
  assert (Hquiet : forall b0, subscribed b0 -> _source (panel b0) <> Some src ->
                              emit src e b0 = Some b0).
  { intros b0 Hb0 Hne. unfold emit. rewrite Hb0.
    destruct (_source (panel b0)) as [s|], e as [u|];
      rewrite decide_False; try done; intros Hin;
      repeat (apply elem_of_cons in Hin as [Heq|Hin]; [congruence|]);
      by apply elem_of_nil in Hin. }
  split; [by apply Hquiet|].
  intros s Hs.
  assert (Hnow : _source (panel (assign_source s b)) = s).
  { unfold assign_source, perform, set_source.
    by case_decide as Hsame; simpl. }
  split; [done|]. apply Hquiet.
  - by apply InspectorProofs.assign_source_subscribed.
  - by rewrite Hnow.
Qed.

Lemma other_sources_are_ignored_witness :
  _source (panel Samples.bound_7) = Some 7 /\
  emit 7 (EmitInspected Samples.update_two)
    (assign_source (Some 8) Samples.bound_7)
  = Some (assign_source (Some 8) Samples.bound_7) /\
  emit 7 EmitDisposed (assign_source None Samples.bound_7)
  = Some (assign_source None Samples.bound_7) /\
  emit 9 (EmitInspected Samples.update_two) Samples.bound_7
  = Some Samples.bound_7.
Proof.
  assert (H8 : Some 8 <> Some 7) by discriminate.
  assert (Hnull : None <> Some 7) by discriminate.
  assert (H9 : _source (panel Samples.bound_7) <> Some 9) by discriminate.
  split; [reflexivity|].
  split; [|split].
  - exact (proj2 (proj2 (other_sources_are_ignored Samples.bound_7 7
                           (EmitInspected Samples.update_two) eq_refl)
                    (Some 8) H8)).
  - exact (proj2 (proj2 (other_sources_are_ignored Samples.bound_7 7
                           EmitDisposed eq_refl) None Hnull)).
  - exact (proj1 (other_sources_are_ignored Samples.bound_7 9
                    (EmitInspected Samples.update_two) eq_refl) H9).
Defined.

(** X7: disposing a live panel disconnects it from its source, if it has
    one, clears the source, then disposes the widget; the panel is then
    flagged, has no source and no connection, and disposing it again makes
    no call at all. *)
Theorem dispose_releases_source (b : Bound)
  (Hsub : subscribed b) (Hlive : isDisposed (panel b) = false) :
  let b' := dispose_bound b in
  isDisposed (panel b') = true /\
  _source (panel b') = None /\
  connections b' = [] /\
  calls b'
  = calls b ++
    match _source (panel b) with
    | Some s => [Disconnect s inspected onInspectorUpdate_slot;
                 Disconnect s disposed onSourceDisposed_slot]
    | None => []
    end ++ [SuperDispose] /\
  _table (panel b') = _table (panel b) /\
  dispose (panel b') = (panel b', []).
Proof.
  pose proof (dispose_bound_subscribed b Hsub) as Hsub'.
  unfold subscribed in Hsub'. revert Hsub'.
  unfold dispose_bound, dispose, perform. rewrite Hlive.
  unfold set_source.
  destruct (_source (panel b)) as [s|] eqn:Hs; simpl; intros Hsub'.
  - by repeat split.
  - rewrite Hs in Hsub'. by repeat split.
Qed.

Lemma dispose_releases_source_witness :
  _source (panel (dispose_bound Samples.bound_7)) = None /\
  connections (dispose_bound Samples.bound_7) = [] /\
  calls (dispose_bound Samples.bound_7)
  = [Disconnect 7 inspected onInspectorUpdate_slot;
     Disconnect 7 disposed onSourceDisposed_slot; SuperDispose].
Proof.
  destruct (dispose_releases_source Samples.bound_7 eq_refl eq_refl)
    as (_ & Hsrc & Hconn & Hcalls & _).
  split; [exact Hsrc|]. split; [exact Hconn|exact Hcalls].
Defined.

(** X8: the rows outlive the source. When the source has emitted an
    update and is then disposed, the table body still shows the rows of
    that update, but the panel has no source any more: a click on the row
    of a matrix throws (the call on the null source), a click on another
    row does nothing. *)
Theorem click_after_source_disposed (b : Bound) (s : ref)
  (u : IVariableInspectorUpdate) (i : nat) (v : IVariable)
  (Hsub : subscribed b) (Hbound : _source (panel b) = Some s)
  (Hvar : payload u !! i = Some v) :
  exists b1 b2,
    emit s (EmitInspected u) b = Some b1 /\
    emit s EmitDisposed b1 = Some b2 /\
    body_rows (panel b2) !! i = Some (rendered_row v) /\
    click (rendered_row v) (panel b2)
    = if isMatrix v then None else Some [].
Proof.
  assert (Hin : (s, inspected, onInspectorUpdate_slot) ∈ connections b
                /\ (s, disposed, onSourceDisposed_slot) ∈ connections b).
  { rewrite Hsub, Hbound. split; set_solver. }
  destruct Hin as [Hin1 Hin2].
  unfold emit at 1. rewrite decide_True by done.
  rewrite InspectorProofs.onInspectorUpdate_renders. simpl.
  eexists. eexists. split; [reflexivity|].
  unfold emit. simpl. rewrite decide_True by done.
  split; [reflexivity|].
  unfold onSourceDisposed, perform, set_source. simpl. rewrite Hbound. simpl.
  split.
  - unfold body_rows. simpl. by rewrite list_lookup_fmap, Hvar.
  - unfold rendered_row, shown_row, click. by destruct (isMatrix v).
Qed.

Lemma click_after_source_disposed_witness :
  exists b1 b2,
    emit 7 (EmitInspected Samples.update_two) Samples.bound_7 = Some b1 /\
    emit 7 EmitDisposed b1 = Some b2 /\
    body_rows (panel b2) !! 1 = Some (rendered_row Samples.var_matrix) /\
    click (rendered_row Samples.var_matrix) (panel b2) = None.
Proof.
  exact (click_after_source_disposed Samples.bound_7 7 Samples.update_two 1
           Samples.var_matrix eq_refl eq_refl eq_refl).
Defined.

(** *** Matrix views *)

(** X18: every matrix inspection that resolves opens a view of its own.
    On a panel attached to a layout, showing the models of several
    inspections adds one data grid per model to the layout, in order,
    split to the right, after the widgets already there, and changes
    nothing else in the panel; on a panel without parent, showing a model
    throws. *)
Theorem matrix_views_accumulate (name : string) (ms : list DataModel)
  (p : VariableInspectorPanel) (lout : DockLayout)
  (Hattached : parent p = Some lout) :
  show_all name ms p
  = Some (with_parent
            (Some (lout ++ map (fun m => (matrix_grid name m, "split-right"))
                               ms)) p) /\
  forall m, _showMatrix m name (with_parent None p) = None.
Proof.
  split; [|done]. unfold show_all.
  revert p lout Hattached. induction ms as [|m ms IH]; intros p lout Hp.
  - simpl. rewrite app_nil_r. destruct p. simpl in Hp. by rewrite Hp.
  - simpl. unfold _showMatrix at 2. rewrite Hp. simpl.
    rewrite (IH _ (lout ++ [(matrix_grid name m, "split-right")]))
      by done.
    by rewrite <- app_assoc.
Qed.

Lemma matrix_views_accumulate_witness :
  show_all "grid" [DataModelHandle 1; DataModelHandle 2] Samples.bound_panel
  = Some (with_parent
            (Some [(matrix_grid "grid" (DataModelHandle 1), "split-right");
                   (matrix_grid "grid" (DataModelHandle 2), "split-right")])
            Samples.bound_panel).
Proof.
  exact (proj1 (matrix_views_accumulate "grid"
                  [DataModelHandle 1; DataModelHandle 2]
                  Samples.bound_panel [] eq_refl)).
Defined.

End PanelLifeProofs.

(** * Further properties of the host wiring *)

Module WiringProofs.
Import Manager Plugin WiringFacts.

(** Case analysis on the active handler the code tests. *)
Ltac case_source :=
  unfold Manager.source in *;
  match goal with
  | |- context [match _source ?m with _ => _ end] => destruct (_source m)
  end.

(** *** The command that opens the inspector *)

(** X9: after the command has run, the manager's panel is a live panel
    attached to the shell; running the command again creates no panel,
    leaves the manager and the shell as they are, and only calls
    [performInspection] on the active handler, if there is one, and
    activates the panel. *)
Theorem execute_opens_one_panel (w : World)
  (Hfresh : next_obj w ∉ disposed_objs w) :
  let w1 := execute w in
  exists p,
    Manager.panel (manager w1) = Some p /\
    (p ∉ disposed_objs w1) /\
    (p ∈ attached w1) /\
    next_obj (execute w1) = next_obj w1 /\
    manager (execute w1) = manager w1 /\
    attached (execute w1) = attached w1 /\
    output (execute w1)
    = output w1 ++
      match Manager.source (manager w1) with
      | Some s => [PerformInspection s]
      | None => []
      end ++ [ShellActivateById "jp-variableinspector"].
Proof.
  assert (Hagain : forall w1 p,
             Manager.panel (manager w1) = Some p ->
             p ∉ disposed_objs w1 -> p ∈ attached w1 ->
             next_obj (execute w1) = next_obj w1 /\
             manager (execute w1) = manager w1 /\
             attached (execute w1) = attached w1 /\
             output (execute w1)
             = output w1 ++
               match Manager.source (manager w1) with
               | Some s => [PerformInspection s]
               | None => []
               end ++ [ShellActivateById "jp-variableinspector"]).
  { intros w1 p Hp Hlive Hatt. unfold execute. rewrite Hp.
    rewrite bool_decide_eq_false_2 by done. rewrite Hp.
    rewrite decide_True by done.
    destruct (Manager.source (manager w1)); simpl;
      rewrite <- ?app_assoc; done. }
  assert (Hopen : exists p,
             Manager.panel (manager (execute w)) = Some p /\
             (p ∉ disposed_objs (execute w)) /\
             (p ∈ attached (execute w))).
  { unfold execute, newPanel, connect_disposed, fresh, Manager.panel,
      Manager.set_panel, Manager.source.
    destruct (_panel (manager w)) as [p|] eqn:Hp;
      [destruct (bool_decide (p ∈ disposed_objs w)) eqn:Hd|]; simpl;
      rewrite ?Hp; simpl.
    - exists (next_obj w).
      destruct (decide (next_obj w ∈ attached w)); simpl;
        destruct (_source (manager w)); simpl;
        repeat split; try done;
        apply elem_of_union_l; by apply elem_of_singleton.
    - apply bool_decide_eq_false in Hd. exists p.
      destruct (decide (p ∈ attached w)); simpl;
        destruct (_source (manager w)); simpl;
        repeat split; try done;
        apply elem_of_union_l; by apply elem_of_singleton.
    - exists (next_obj w).
      destruct (decide (next_obj w ∈ attached w)); simpl;
        destruct (_source (manager w)); simpl;
        repeat split; try done;
        apply elem_of_union_l; by apply elem_of_singleton. }
  intros w1. destruct Hopen as (p & Hp & Hlive & Hatt).
  exists p. repeat split; try done; by eapply Hagain.
Qed.

Lemma execute_opens_one_panel_witness :
  Manager.panel (manager (execute init)) = Some 0 /\
  next_obj (execute (execute init)) = 1.
Proof.
  assert (Hfresh : next_obj init ∉ disposed_objs init)
    by apply not_elem_of_empty.
  destruct (execute_opens_one_panel init Hfresh)
    as (p & Hp & _ & _ & Hnext & _).
  split; [reflexivity|exact Hnext].
Defined.

(** X10: open, close, open again. With no panel yet, the command creates
    one and makes it the manager's panel; when that panel is disposed the
    manager's reference is cleared and the panel leaves the shell; the
    command then creates a second panel, tracks it, attaches it and makes
    it the manager's panel. *)
Theorem reopen_after_close (w : World)
  (Hnone : Manager.panel (manager w) = None)
  (Hfresh : next_obj w ∉ disposed_objs w)
  (Hslots : disposed_slots w !! next_obj w = None) :
  let p := next_obj w in
  let w1 := execute w in
  let w2 := widget_disposed p w1 in
  let w3 := execute w2 in
  Manager.panel (manager w1) = Some p /\
  Manager.panel (manager w2) = None /\
  (p ∈ disposed_objs w2) /\
  (p ∉ attached w2) /\
  Manager.panel (manager w3) = Some (S p) /\
  (S p ∈ attached w3) /\
  (TrackerAdd (S p) ∈ output w3).
Proof.
  intros p w1 w2 w3.
  assert (H1 : Manager.panel (manager w1) = Some p /\
               disposed_objs w1 = disposed_objs w /\
               next_obj w1 = S p /\
               disposed_slots w1 !! p = Some [ClearManagerPanel p]).
  { subst w1 p. unfold execute, newPanel, connect_disposed, fresh.
    unfold Manager.panel in *. rewrite Hnone. simpl.
    destruct (decide (next_obj w ∈ attached w)); simpl;
      case_source; simpl;
      rewrite lookup_insert_eq, Hslots; done. }
  destruct H1 as (Hp1 & Hd1 & Hn1 & Hs1).
  assert (H2 : Manager.panel (manager w2) = None /\
               disposed_objs w2 = {[p]} ∪ disposed_objs w /\
               attached w2 = attached w1 ∖ {[p]} /\
               next_obj w2 = S p /\
               disposed_slots w2 !! S p = disposed_slots w1 !! S p).
  { subst w2. unfold widget_disposed.
    rewrite decide_False by (by rewrite Hd1). simpl.
    rewrite Hs1. simpl. rewrite decide_True by done. simpl.
    rewrite Hd1, Hn1. repeat split; try done.
    apply lookup_delete_ne. lia. }
  destruct H2 as (Hp2 & Hd2 & Ha2 & Hn2 & _).
  repeat split; try done.
  - rewrite Hd2. apply elem_of_union_l. by apply elem_of_singleton.
  - rewrite Ha2. intros Hin. apply elem_of_difference in Hin as [_ Hin].
    apply Hin. by apply elem_of_singleton.
  - subst w3. unfold execute, newPanel, connect_disposed, fresh.
    unfold Manager.panel in *. rewrite Hp2. simpl. rewrite Hn2.
    destruct (decide (S p ∈ attached w2)); simpl;
      by case_source.
  - subst w3. unfold execute, newPanel, connect_disposed, fresh.
    unfold Manager.panel in *. rewrite Hp2. simpl. rewrite Hn2.
    destruct (decide (S p ∈ attached w2)); simpl;
      case_source; simpl; try done;
      apply elem_of_union_l; by apply elem_of_singleton.
  - subst w3. unfold execute, newPanel, connect_disposed, fresh.
    unfold Manager.panel in *. rewrite Hp2. simpl. rewrite Hn2.
    destruct (decide (S p ∈ attached w2)); simpl;
      case_source; simpl;
      rewrite ?elem_of_app, ?elem_of_cons; tauto.
Qed.

Lemma reopen_after_close_witness :
  Manager.panel (manager (execute init)) = Some 0 /\
  Manager.panel (manager (widget_disposed 0 (execute init))) = None /\
  Manager.panel (manager (execute (widget_disposed 0 (execute init))))
  = Some 1.
Proof.
  assert (Hfresh : next_obj init ∉ disposed_objs init)
    by apply not_elem_of_empty.
  destruct (reopen_after_close init eq_refl Hfresh eq_refl)
    as (H1 & H2 & _ & _ & H3 & _).
  split; [exact H1|]. split; [exact H2|exact H3].
Defined.

(** *** Widgets added *)

(** X11: adding a console or a notebook only records it: the widget is
    tracked and a new promise is stored under its id, replacing nothing
    else in the dictionary and nothing in the other plugin's dictionary;
    the manager is not touched and no call is made. The promise is
    pending, except for a console whose session path has a handler in the
    manager, where it is fulfilled with that handler. *)
Theorem widgetAdded_only_records (t : Tracker) (panel : Widget) (w : World) :
  let w' := widgetAdded t panel w in
  manager w' = manager w /\
  output w' = output w /\
  (widget_obj panel ∈ tracker t w') /\
  handlers t w' = <[widget_id panel := next_obj w]> (handlers t w) /\
  handlers (other t) w' = handlers (other t) w /\
  handler_entry t (widget_id panel) w'
  = Some match t, Manager.getHandler (path (widget_session panel))
                    (manager w) with
         | Consoles, Some h => Fulfilled (Some (Inspection h))
         | _, _ => Pending
         end.
Proof.
  destruct t; simpl.
  - unfold consoles_widgetAdded, Manager.hasHandler, Manager.getHandler.
    simpl. destruct (_handlers (manager w) !! _) as [h|] eqn:Hh.
    + rewrite bool_decide_eq_true_2 by eauto.
      unfold new_promise, settle, handler_entry. simpl.
      rewrite lookup_insert_eq. simpl. rewrite ?Hh. simpl.
      rewrite lookup_insert_eq. simpl. rewrite lookup_insert_eq.
      repeat split; try done.
      apply elem_of_union_l. by apply elem_of_singleton.
    + rewrite bool_decide_eq_false_2 by (by intros [? ?]).
      unfold handler_entry. simpl. rewrite lookup_insert_eq. simpl.
      rewrite lookup_insert_eq.
      repeat split; try done.
      apply elem_of_union_l. by apply elem_of_singleton.
  - unfold handler_entry. simpl. rewrite lookup_insert_eq. simpl.
    rewrite lookup_insert_eq.
    repeat split; try done.
    apply elem_of_union_l. by apply elem_of_singleton.
Qed.

Lemma filter_waits_none {A} (P : A -> bool) (l : list A) :
  Forall (fun x => P x = false) l ->
  filter (fun x => P x = true) l = [] /\
  filter (fun x => P x = false) l = l.
Proof.
  induction 1 as [|x l Hx Hl [IH1 IH2]]; [done|].
  rewrite !filter_cons, IH1, IH2.
  rewrite decide_False by (by rewrite Hx).
  by rewrite decide_True.
Qed.

(** X12: from a widget to its handler. A notebook, or a console whose
    session path has no handler in the manager, is added; its connector
    becomes ready on a kernel type that has a script; the handler becomes
    ready. Until then the widget's promise is pending; after, it is
    fulfilled with a handler built from the script and the connector and
    identified by the session path, which is the one the manager holds
    for that path; a slot that forgets the entry and disposes the handler
    is connected to the widget; nothing is left waiting. *)
Theorem widget_to_handler
  (getScript : string -> Languages.LanguageModel + string)
  (t : Tracker) (panel : Widget) (kerneltype : string)
  (result : Languages.LanguageModel) (w : World)
  (Hscript : getScript kerneltype = inl result)
  (Hnew : t = Consoles ->
          Manager.hasHandler (path (widget_session panel)) (manager w)
          = false)
  (Hconn : Forall (fun k => waits_for_connector (S (next_obj w)) k = false)
                  (tasks w))
  (Hhand : Forall (fun k => waits_for_handler (S (S (next_obj w))) k = false)
                  (tasks w)) :
  let c := {| connector_obj := S (next_obj w);
              session := widget_session panel |} in
  let h := {| handler_obj := S (S (next_obj w));
              options := {| queryCommand := Languages.queryCommand result;
                            matrixQueryCommand :=
                              Languages.matrixQueryCommand result;
                            connector := c;
                            initScript := Languages.initScript result;
                            id := path (widget_session panel) |} |} in
  let w2 := run getScript [WidgetAdded t panel;
                           ConnectorReady (S (next_obj w)) kerneltype] w in
  let w3 := step getScript (HandlerReady (S (S (next_obj w)))) w2 in
  handler_entry t (widget_id panel) w2 = Some Pending /\
  handler_entry t (widget_id panel) w3
  = Some (Fulfilled (Some (Inspection h))) /\
  manager w3 = Manager.addHandler h (manager w) /\
  Manager.getHandler (path (widget_session panel)) (manager w3) = Some h /\
  tasks w3 = tasks w /\
  disposed_slots w3 !! widget_obj panel
  = Some (default [] (disposed_slots w !! widget_obj panel)
          ++ [ForgetAndDispose t (widget_id panel) (Inspection h)]).
Proof.
  intros c h w2 w3.
  destruct (filter_waits_none _ _ Hconn) as [Hc1 Hc2].
  destruct (filter_waits_none _ _ Hhand) as [Hh1 Hh2].
  assert (Hw1 : widgetAdded t panel w
                = set_handlers t
                    (<[widget_id panel := next_obj w]> (handlers t w))
                    (start_connector t panel (next_obj w)
                       (new_promise
                          (set_trackers
                             (match t with
                              | Consoles => {[widget_obj panel]}
                                            ∪ console_tracker w
                              | Notebooks => console_tracker w
                              end)
                             (match t with
                              | Consoles => notebook_tracker w
                              | Notebooks => {[widget_obj panel]}
                                             ∪ notebook_tracker w
                              end) w)).2)).
  { destruct t; simpl; [|done].
    unfold consoles_widgetAdded. simpl. rewrite (Hnew eq_refl). done. }
  assert (Ht1 : tasks (widgetAdded t panel w)
                = tasks w ++ [ConnectorReadyThen t panel c (next_obj w)])
    by (by rewrite Hw1).
  assert (E2 : w2 = on_connector_ready getScript t panel c (next_obj w)
                      kerneltype
                      (set_tasks (tasks w) (widgetAdded t panel w))).
  { subst w2. unfold run. cbn [foldl].
    change (step getScript (WidgetAdded t panel) w)
      with (widgetAdded t panel w).
    remember (widgetAdded t panel w) as w1 eqn:Ew1.
    unfold step. rewrite Ht1, !filter_app, Hc1, Hc2.
    rewrite !filter_cons, !filter_nil. cbn [waits_for_connector].
    change (connector_obj c) with (S (next_obj w)).
    rewrite (bool_decide_eq_true_2 (S (next_obj w) = S (next_obj w)) eq_refl).
    rewrite decide_False by done. rewrite decide_True by done.
    simpl. by rewrite app_nil_r. }
  assert (Hw2 : tasks w2 = tasks w ++ [HandlerReadyThen h (next_obj w)] /\
                manager w2 = Manager.addHandler h (manager w) /\
                handlers t w2 !! widget_id panel = Some (next_obj w) /\
                promises w2 !! next_obj w
                = Some {| pstate := Pending; reactions := [] |} /\
                disposed_slots w2 !! widget_obj panel
                = Some (default [] (disposed_slots w !! widget_obj panel)
                        ++ [ForgetAndDispose t (widget_id panel)
                              (Inspection h)])).
  { rewrite E2, Hw1. unfold on_connector_ready. rewrite Hscript. simpl.
    repeat split; try done.
    - destruct t; simpl; by rewrite lookup_insert_eq.
    - by rewrite lookup_insert_eq.
    - by rewrite lookup_insert_eq. }
  destruct Hw2 as (Ht2 & Hm2 & He2 & Hp2 & Hs2).
  split.
  { unfold handler_entry. rewrite He2. simpl. by rewrite Hp2. }
  subst w3. unfold step. rewrite Ht2.
  rewrite !filter_app, Hh1, Hh2. simpl.
  rewrite !filter_cons, !filter_nil. simpl.
  rewrite !bool_decide_eq_true_2 by done.
  simpl. unfold settle. simpl. rewrite Hp2. simpl.
  unfold handler_entry. simpl.
  assert (He3 : handlers t
                  (set_promises
                     (<[next_obj w:={| pstate := Fulfilled
                                                   (Some (Inspection h));
                                       reactions := [] |}]> (promises w2))
                     (set_tasks (tasks w ++ []) w2))
                !! widget_id panel = Some (next_obj w)).
  { destruct t; simpl; exact He2. }
  rewrite He3. simpl. rewrite lookup_insert_eq. simpl.
  rewrite Hm2, app_nil_r.
  repeat split; try done.
  unfold Manager.getHandler. simpl. by rewrite lookup_insert_eq.
Qed.

Lemma widget_to_handler_witness :
  handler_entry Notebooks "nb-1"
    (step Samples.sample_getScript (HandlerReady 2)
       (run Samples.sample_getScript
          [WidgetAdded Notebooks Samples.nb1; ConnectorReady 1 "python3"]
          init))
  = Some (Fulfilled (Some (Inspection Samples.handler_nb1))).
Proof.
  assert (Hnew : Notebooks = Consoles ->
                 Manager.hasHandler (path (widget_session Samples.nb1))
                   (manager init) = false) by discriminate.
  exact (proj1 (proj2 (widget_to_handler Samples.sample_getScript Notebooks
                         Samples.nb1 "python3" Samples.python3 init
                         eq_refl Hnew (Forall_nil_2 _) (Forall_nil_2 _)))).
Defined.

(** The connector [cid] becomes ready while exactly one callback waits
    for it. *)
Lemma step_connector_ready_single
  (getScript : string -> Languages.LanguageModel + string)
  (t : Tracker) (panel : Widget) (c : KernelConnector) (p : nat)
  (kerneltype : string) (before after : list Task) (w : World) :
  tasks w = before ++ ConnectorReadyThen t panel c p :: after ->
  Forall (fun k => waits_for_connector (connector_obj c) k = false) before ->
  Forall (fun k => waits_for_connector (connector_obj c) k = false) after ->
  step getScript (ConnectorReady (connector_obj c) kerneltype) w
  = on_connector_ready getScript t panel c p kerneltype
      (set_tasks (before ++ after) w).
Proof.
  intros Ht Hb Ha.
  destruct (filter_waits_none _ _ Hb) as [Hb1 Hb2].
  destruct (filter_waits_none _ _ Ha) as [Ha1 Ha2].
  unfold step. rewrite Ht, !filter_app, !filter_cons, Hb1, Hb2, Ha1, Ha2.
  cbn [waits_for_connector].
  rewrite (bool_decide_eq_true_2 (connector_obj c = connector_obj c) eq_refl).
  rewrite decide_False by done. rewrite decide_True by done.
  reflexivity.
Qed.

(** What the callback leaves when the kernel type has a script. *)
Lemma on_connector_ready_script
  (getScript : string -> Languages.LanguageModel + string) (t : Tracker)
  (panel : Widget) (c : KernelConnector) (p : nat) (kerneltype : string)
  (result : Languages.LanguageModel) (w : World) :
  getScript kerneltype = inl result ->
  let h := {| handler_obj := next_obj w;
              options := {| queryCommand := Languages.queryCommand result;
                            matrixQueryCommand :=
                              Languages.matrixQueryCommand result;
                            connector := c;
                            initScript := Languages.initScript result;
                            id := path (session c) |} |} in
  let w' := on_connector_ready getScript t panel c p kerneltype w in
  tasks w' = tasks w ++ [HandlerReadyThen h p] /\
  manager w' = Manager.addHandler h (manager w) /\
  next_obj w' = S (next_obj w).
Proof. intros Hs. unfold on_connector_ready. by rewrite Hs. Qed.

(** X19: the manager is asked for a handler when a console is added, not
    when its handler is registered. Two consoles on the same session, both
    added while the manager has no handler for that session, each build a
    connector; when the two connectors are ready, two distinct handlers
    have been constructed for the one session path, both are awaited, and
    the manager holds the second one only. *)
Theorem consoles_added_early_build_two_handlers
  (getScript : string -> Languages.LanguageModel + string)
  (c1 c2 : Widget) (kerneltype : string)
  (result : Languages.LanguageModel) (w : World)
  (Hsame : widget_session c2 = widget_session c1)
  (Hnone : Manager.hasHandler (path (widget_session c1)) (manager w) = false)
  (Hscript : getScript kerneltype = inl result)
  (Hfirst : Forall (fun k => waits_for_connector (S (next_obj w)) k = false)
                   (tasks w))
  (Hsecond : Forall (fun k => waits_for_connector (S (S (S (next_obj w)))) k
                              = false) (tasks w)) :
  let n := next_obj w in
  let handler o c :=
    {| handler_obj := o;
       options := {| queryCommand := Languages.queryCommand result;
                     matrixQueryCommand :=
                       Languages.matrixQueryCommand result;
                     connector := {| connector_obj := c;
                                     session := widget_session c1 |};
                     initScript := Languages.initScript result;
                     id := path (widget_session c1) |} |} in
  let h1 := handler (4 + n) (1 + n) in
  let h2 := handler (5 + n) (3 + n) in
  let w4 := run getScript
              [WidgetAdded Consoles c1; WidgetAdded Consoles c2;
               ConnectorReady (1 + n) kerneltype;
               ConnectorReady (3 + n) kerneltype] w in
  h1 <> h2 /\
  tasks w4 = tasks w ++ [HandlerReadyThen h1 n; HandlerReadyThen h2 (2 + n)]
  /\
  manager w4 = Manager.addHandler h2 (Manager.addHandler h1 (manager w)) /\
  Manager.registered_under (path (widget_session c1)) (manager w4) = [h2].
Proof.
  intros n handler h1 h2 w4.
  set (k1 := ConnectorReadyThen Consoles c1
               {| connector_obj := 1 + n; session := widget_session c1 |} n).
  set (k2 := ConnectorReadyThen Consoles c2
               {| connector_obj := 3 + n; session := widget_session c1 |}
               (2 + n)).
  set (w2 := widgetAdded Consoles c2 (widgetAdded Consoles c1 w)).
  assert (H2 : tasks w2 = tasks w ++ [k1] ++ [k2] /\
               manager w2 = manager w /\ next_obj w2 = 4 + n).
  { subst w2. simpl. unfold consoles_widgetAdded at 2. simpl.
    rewrite Hnone. simpl. unfold consoles_widgetAdded. simpl.
    rewrite Hsame, Hnone. simpl. rewrite Hnone. simpl.
    by rewrite <- app_assoc, Hsame. }
  destruct H2 as (Ht2 & Hm2 & Hn2).
  set (w3 := step getScript (ConnectorReady (1 + n) kerneltype) w2).
  assert (H3 : tasks w3 = (tasks w ++ [k2]) ++ [HandlerReadyThen h1 n] /\
               manager w3 = Manager.addHandler h1 (manager w) /\
               next_obj w3 = 5 + n).
  { assert (E : w3 = on_connector_ready getScript Consoles c1
                        {| connector_obj := 1 + n;
                           session := widget_session c1 |}
                        n kerneltype (set_tasks (tasks w ++ [k2]) w2)).
    { apply (step_connector_ready_single getScript Consoles c1
               {| connector_obj := 1 + n; session := widget_session c1 |}
               n kerneltype (tasks w) [k2] w2); [done|done|].
      apply Forall_singleton. simpl. apply bool_decide_eq_false_2. lia. }
    rewrite E.
    - destruct (on_connector_ready_script getScript Consoles c1
                  {| connector_obj := 1 + n; session := widget_session c1 |}
                  n kerneltype result (set_tasks (tasks w ++ [k2]) w2)
                  Hscript) as (Ht & Hm & Hn).
      rewrite Ht, Hm, Hn. simpl. by rewrite Hm2, Hn2. }
  destruct H3 as (Ht3 & Hm3 & Hn3).
  assert (H4 : tasks w4 = (tasks w ++ [HandlerReadyThen h1 n])
                          ++ [HandlerReadyThen h2 (2 + n)] /\
               manager w4 = Manager.addHandler h2
                              (Manager.addHandler h1 (manager w))).
  { assert (E : w4 = on_connector_ready getScript Consoles c2
                        {| connector_obj := 3 + n;
                           session := widget_session c1 |}
                        (2 + n) kerneltype
                        (set_tasks (tasks w ++ [HandlerReadyThen h1 n]) w3)).
    { apply (step_connector_ready_single getScript Consoles c2
               {| connector_obj := 3 + n; session := widget_session c1 |}
               (2 + n) kerneltype (tasks w) [HandlerReadyThen h1 n] w3).
      - by rewrite Ht3, <- app_assoc.
      - done.
      - by apply Forall_singleton. }
    rewrite E.
    - destruct (on_connector_ready_script getScript Consoles c2
                  {| connector_obj := 3 + n; session := widget_session c1 |}
                  (2 + n) kerneltype result
                  (set_tasks (tasks w ++ [HandlerReadyThen h1 n]) w3)
                  Hscript) as (Ht & Hm & _).
      rewrite Ht, Hm. simpl. by rewrite Hm3, Hn3. }
  destruct H4 as (Ht4 & Hm4).
  split; [|split; [|split]].
  - intros Heq. apply (f_equal handler_obj) in Heq. simpl in Heq. lia.
  - by rewrite Ht4, <- app_assoc.
  - done.
  - rewrite ManagerProofs.registered_under_lookup, Hm4. simpl.
    by rewrite lookup_insert_eq.
Qed.

Lemma consoles_added_early_build_two_handlers_witness :
  Manager.registered_under "a.ipynb"
    (manager (run Samples.sample_getScript
                [WidgetAdded Consoles Samples.console1;
                 WidgetAdded Consoles console2;
                 ConnectorReady 1 "python3"; ConnectorReady 3 "python3"]
                init))
  = [{| handler_obj := 5;
        options := {| queryCommand := Languages.queryCommand Samples.python3;
                      matrixQueryCommand :=
                        Languages.matrixQueryCommand Samples.python3;
                      connector := {| connector_obj := 3;
                                      session := {| path := "a.ipynb" |} |};
                      initScript := Languages.initScript Samples.python3;
                      id := "a.ipynb" |} |}].
Proof.
  exact (proj2 (proj2 (proj2
           (consoles_added_early_build_two_handlers Samples.sample_getScript
              Samples.console1 console2 "python3" Samples.python3
              init eq_refl eq_refl eq_refl (Forall_nil_2 _)
              (Forall_nil_2 _))))).
Defined.

(** *** Kernels without a script *)

(** X13: for a notebook whose kernel type has no script, the focus
    changes that were waiting for the handler are dropped: the manager and
    the calls made are as before, nothing is connected to the notebook
    panel, and every later focus change to a widget with that entry
    leaves the world as it is. *)
Theorem notebook_without_script_is_inert
  (getScript : string -> Languages.LanguageModel + string)
  (kerneltype msg : string) (panel : Widget) (c : KernelConnector)
  (future : nat) (rs : list Reaction) (w : World)
  (Hreject : getScript kerneltype = inr msg)
  (Hpending : promises w !! future
              = Some {| pstate := Pending; reactions := rs |}) :
  let w' := on_connector_ready getScript Notebooks panel c future
              kerneltype w in
  manager w' = manager w /\
  output w' = output w /\
  disposed_slots w' = disposed_slots w /\
  forall widget,
    handlers Notebooks w' !! widget_id widget = Some future ->
    currentChanged Notebooks (Some widget) w' = w'.
Proof.
  unfold on_connector_ready. rewrite Hreject. simpl.
  unfold settle. rewrite Hpending. simpl.
  repeat split; try done.
  intros widget Hentry. unfold currentChanged.
  case_decide; [|done]. simpl. rewrite Hentry.
  unfold promise_then. simpl. by rewrite lookup_insert_eq.
Qed.

Lemma notebook_without_script_is_inert_witness :
  currentChanged Notebooks (Some Samples.nb1)
    (on_connector_ready Samples.sample_getScript Notebooks Samples.nb1
       {| connector_obj := 1; session := {| path := "a.ipynb" |} |}
       0 "cobol" (widgetAdded Notebooks Samples.nb1 init))
  = on_connector_ready Samples.sample_getScript Notebooks Samples.nb1
      {| connector_obj := 1; session := {| path := "a.ipynb" |} |}
      0 "cobol" (widgetAdded Notebooks Samples.nb1 init).
Proof.
  destruct (notebook_without_script_is_inert Samples.sample_getScript
              "cobol" _ Samples.nb1
              {| connector_obj := 1; session := {| path := "a.ipynb" |} |}
              0 [] (widgetAdded Notebooks Samples.nb1 init)
              eq_refl eq_refl) as (_ & _ & _ & Hinert).
  exact (Hinert Samples.nb1 eq_refl).
Defined.

(** X14: for a console whose kernel type has no script, the message is
    logged, a dummy handler is built on the connector and is never
    registered in the manager, the slot that forgets the entry and
    disposes the dummy is connected to the console panel, and every focus
    change that was waiting makes the dummy the active handler and calls
    its [performInspection]. *)
Theorem console_without_script_gets_dummy
  (getScript : string -> Languages.LanguageModel + string)
  (kerneltype msg : string) (panel : Widget) (c : KernelConnector)
  (future : nat) (rs : list Reaction) (w : World)
  (Hreject : getScript kerneltype = inr msg)
  (Hpending : promises w !! future
              = Some {| pstate := Pending; reactions := rs |}) :
  let w' := on_connector_ready getScript Consoles panel c future
              kerneltype w in
  let dummy := Dummy (next_obj w) c in
  output w'
  = output w ++ ConsoleLog msg
               :: replicate (length rs) (PerformInspection dummy) /\
  (rs <> [] -> Manager.source (manager w') = Some dummy) /\
  (rs = [] -> manager w' = manager w) /\
  disposed_slots w' !! widget_obj panel
  = Some (default [] (disposed_slots w !! widget_obj panel)
          ++ [ForgetAndDispose Consoles (widget_id panel) dummy]) /\
  tasks w' = tasks w.
Proof.
  unfold on_connector_ready. rewrite Hreject. simpl.
  unfold settle. simpl. rewrite Hpending. simpl.
  match goal with
  | |- context [foldl _ ?w0 rs] =>
      pose proof (PluginProofs.run_reactions (Dummy (next_obj w) c) rs w0)
        as (Hout & Hsrc & _);
      set (wf := foldl (fun w1 r =>
                          run_reaction r (Some (Dummy (next_obj w) c)) w1)
                   w0 rs) in *
  end.
  simpl in Hout. rewrite Hout, <- app_assoc. simpl.
  repeat split; try done.
  - intros ->. by subst wf.
  - subst wf. clear. induction rs as [|[] rs IH] using rev_ind; simpl.
    + by rewrite lookup_insert_eq.
    + rewrite foldl_app. simpl. exact IH.
  - subst wf. clear. induction rs as [|[] rs IH] using rev_ind; simpl.
    + done.
    + rewrite foldl_app. simpl. exact IH.
Qed.

Lemma console_without_script_gets_dummy_witness :
  output (on_connector_ready Samples.sample_getScript Consoles
            Samples.console1
            {| connector_obj := 1; session := {| path := "a.ipynb" |} |}
            0 "cobol" (widgetAdded Consoles Samples.console1 init))
  = [ConsoleLog "Language cobol not supported yet!"].
Proof.
  destruct (console_without_script_gets_dummy Samples.sample_getScript
              "cobol" _ Samples.console1
              {| connector_obj := 1; session := {| path := "a.ipynb" |} |}
              0 [] (widgetAdded Consoles Samples.console1 init)
              eq_refl eq_refl) as (Hout & _).
  exact Hout.
Defined.

(** *** Promises are never fulfilled with null *)

Lemma never_null_promises (w w' : World) :
  promises w' = promises w -> never_null w -> never_null w'.
Proof. intros Hp Hw p pr. rewrite Hp. apply Hw. Qed.

Lemma run_reactions_promises (v : option Inspectable) (rs : list Reaction)
  (w : World) :
  promises (foldl (fun w r => run_reaction r v w) w rs) = promises w.
Proof.
  revert w. induction rs as [|[] rs IH]; intros w; simpl; [done|].
  rewrite IH. destruct v; [|done]. by simpl.
Qed.

Lemma never_null_insert (p : nat) (pr : Promise) (w : World) :
  pstate pr <> Fulfilled None -> never_null w ->
  never_null (set_promises (<[p := pr]> (promises w)) w).
Proof.
  intros Hpr Hw q qr. simpl. destruct (decide (p = q)) as [->|Hne].
  - rewrite lookup_insert_eq. by intros [= <-].
  - rewrite lookup_insert_ne by done. apply Hw.
Qed.

Lemma settle_never_null (p : nat) (st : PromiseState) (w : World) :
  st <> Fulfilled None -> never_null w -> never_null (settle p st w).
Proof.
  intros Hst Hw. unfold settle.
  destruct (promises w !! p) as [[[| |] rs]|]; try done.
  assert (Hset : never_null
                   (set_promises (<[p := {| pstate := st; reactions := [] |}]>
                                    (promises w)) w))
    by (by apply never_null_insert).
  destruct st; try done.
  eapply never_null_promises; [apply run_reactions_promises|done].
Qed.

Lemma promise_then_never_null (p : nat) (r : Reaction) (w : World) :
  never_null w -> never_null (promise_then p r w).
Proof.
  intros Hw. unfold promise_then.
  destruct (promises w !! p) as [[[|v|] rs]|]; try done.
  - by apply never_null_insert.
  - eapply never_null_promises; [|done].
    apply (run_reactions_promises v [r]).
Qed.

Lemma widget_disposed_promises (o : nat) (w : World) :
  promises (widget_disposed o w) = promises w.
Proof.
  unfold widget_disposed. case_decide; [done|]. simpl.
  match goal with
  | |- promises (foldl _ ?w0 ?l) = _ =>
      change (promises w) with (promises w0); generalize w0; generalize l
  end.
  intros l. induction l as [|s l IH]; intros w0; simpl; [done|].
  rewrite IH. destruct s; simpl; [by case_decide|].
  unfold handler_dispose. by case_decide.
Qed.

Lemma execute_promises (w : World) : promises (execute w) = promises w.
Proof.
  unfold execute, newPanel, connect_disposed, fresh, Manager.panel,
    Manager.source, Manager.set_panel;
    repeat (case_match || case_decide); simplify_eq/=; done.
Qed.

Lemma widgetAdded_never_null (t : Tracker) (panel : Widget) (w : World) :
  never_null w -> never_null (widgetAdded t panel w).
Proof.
  intros Hw.
  assert (Hnew : forall w0, promises w0 = promises w ->
                            never_null (new_promise w0).2).
  { intros w0 Hw0. unfold new_promise. simpl.
    apply (never_null_insert _ _ (fresh w0).2); [done|].
    by eapply never_null_promises. }
  destruct t; simpl.
  - unfold consoles_widgetAdded.
    destruct (Manager.hasHandler _ _) eqn:Hhas.
    + eapply never_null_promises; [reflexivity|].
      apply settle_never_null; [|by apply Hnew].
      apply bool_decide_eq_true in Hhas as [h Hh]. simpl in Hh.
      unfold Manager.getHandler. simpl. by rewrite Hh.
    + eapply never_null_promises; [|by apply (Hnew _ eq_refl)]. done.
  - eapply never_null_promises; [|by apply (Hnew _ eq_refl)]. done.
Qed.

Lemma on_connector_ready_never_null
  (getScript : string -> Languages.LanguageModel + string) (t : Tracker)
  (panel : Widget) (c : KernelConnector) (p : nat) (kerneltype : string)
  (w : World) :
  never_null w ->
  never_null (on_connector_ready getScript t panel c p kerneltype w).
Proof.
  intros Hw. unfold on_connector_ready.
  destruct (getScript kerneltype) as [result|msg].
  - by eapply never_null_promises.
  - destruct t; simpl.
    + apply settle_never_null; [done|]. by eapply never_null_promises.
    + by apply settle_never_null.
Qed.

Lemma foldl_never_null {A} (f : World -> A -> World) (l : list A) :
  (forall w x, never_null w -> never_null (f w x)) ->
  forall w, never_null w -> never_null (foldl f w l).
Proof.
  intros Hf. induction l as [|x l IH]; intros w Hw; simpl; [done|].
  apply IH. by apply Hf.
Qed.

Lemma step_never_null
  (getScript : string -> Languages.LanguageModel + string)
  (e : Event) (w : World) :
  never_null w -> never_null (step getScript e w).
Proof.
  intros Hw. destruct e as [|t panel|c kt|h|newValue|o]; simpl.
  - eapply never_null_promises; [apply execute_promises|done].
  - by apply widgetAdded_never_null.
  - apply (foldl_never_null
             (fun w k => run_connector_task getScript kt k w)).
    + intros w0 [t panel connector p|]; simpl; [|done].
      apply on_connector_ready_never_null.
    + by eapply never_null_promises.
  - apply (foldl_never_null (fun w k => run_handler_task k w)).
    + intros w0 [|handler p]; simpl; [done|].
      by apply settle_never_null.
    + by eapply never_null_promises.
  - assert (Hcb : forall t w0, never_null w0 ->
                               never_null (currentChanged t newValue w0)).
    { intros t w0 Hw0. unfold currentChanged.
      destruct newValue as [widget|]; [|done]. case_decide; [|done].
      destruct (handlers t w0 !! widget_id widget).
      - by apply promise_then_never_null.
      - by eapply never_null_promises. }
    by apply Hcb, Hcb.
  - eapply never_null_promises; [apply widget_disposed_promises|done].
Qed.

(** X15: whatever the host and the sessions do, starting from the
    plugins' activation, no promise of a handler is ever fulfilled with
    null or undefined: a console reuses a handler only after
    [hasHandler] has confirmed it, and the other resolutions pass a
    handler just constructed. The test [if (source)] of the focus
    callbacks therefore never fails. *)
Theorem promises_never_null
  (getScript : string -> Languages.LanguageModel + string)
  (es : list Event) :
  never_null (run getScript es init) /\
  forall t wid v,
    handler_entry t wid (run getScript es init) = Some (Fulfilled v) ->
    exists h, v = Some h.
Proof.
  assert (Hinv : never_null (run getScript es init)).
  { apply (foldl_never_null (fun w e => step getScript e w)).
    - intros w e. apply step_never_null.
    - intros p pr Hp. simpl in Hp. by rewrite lookup_empty in Hp. }
  split; [done|]. intros t wid v. unfold handler_entry.
  destruct (handlers t _ !! wid) as [p|]; [|done]. simpl.
  destruct (promises _ !! p) as [pr|] eqn:Hpr; [|done]. simpl.
  intros [= Hst]. specialize (Hinv p pr Hpr).
  destruct v as [h|]; [by exists h|]. congruence.
Qed.

Lemma promises_never_null_witness :
  exists h,
    Some (Inspection Samples.handler_nb1) = Some h.
Proof.
  exact (proj2 (promises_never_null Samples.sample_getScript
                  [WidgetAdded Notebooks Samples.nb1;
                   ConnectorReady 1 "python3"; HandlerReady 2])
           Notebooks "nb-1" (Some (Inspection Samples.handler_nb1))
           eq_refl).
Defined.

(** *** What a focus change leaves alone *)

Lemma promise_kept_refl (o : option Promise) : promise_kept o o.
Proof.
  destruct o as [pr|]; simpl; [|done]. split; [done|].
  exists []. by rewrite app_nil_r.
Qed.

Lemma promise_kept_trans (o1 o2 o3 : option Promise) :
  promise_kept o1 o2 -> promise_kept o2 o3 -> promise_kept o1 o3.
Proof.
  destruct o1 as [p1|], o2 as [p2|], o3 as [p3|]; simpl; try done.
  intros [Hs12 [a12 Hr12]] [Hs23 [a23 Hr23]]. split; [congruence|].
  exists (a12 ++ a23). by rewrite Hr23, Hr12, app_assoc.
Qed.

Lemma same_wiring_refl (w : World) : same_wiring w w.
Proof. split_and!; try done. intros p. apply promise_kept_refl. Qed.

Lemma same_wiring_trans (w1 w2 w3 : World) :
  same_wiring w1 w2 -> same_wiring w2 w3 -> same_wiring w1 w3.
Proof.
  unfold same_wiring. intros H12 H23.
  destruct H12 as (?&?&?&?&?&?&?&?&?&?&?&Hp12).
  destruct H23 as (?&?&?&?&?&?&?&?&?&?&?&Hp23).
  split_and!; try congruence.
  intros p. eapply promise_kept_trans; [apply Hp12|apply Hp23].
Qed.

Lemma run_reaction_same_wiring (r : Reaction) (v : option Inspectable)
  (w : World) : same_wiring w (run_reaction r v w).
Proof.
  destruct r, v; simpl; split_and!; try done;
    intros p; apply promise_kept_refl.
Qed.

Lemma promise_then_same_wiring (p : nat) (r : Reaction) (w : World) :
  same_wiring w (promise_then p r w).
Proof.
  unfold promise_then.
  destruct (promises w !! p) as [[[|v|] rs]|] eqn:Hp;
    try apply same_wiring_refl.
  - split_and!; try done. intros q. simpl.
    destruct (decide (p = q)) as [<-|Hne].
    + rewrite lookup_insert_eq, Hp. simpl. split; [done|]. by exists [r].
    + rewrite lookup_insert_ne by done. apply promise_kept_refl.
  - apply run_reaction_same_wiring.
Qed.

Lemma currentChanged_same_wiring (t : Tracker) (newValue : option Widget)
  (w : World) : same_wiring w (currentChanged t newValue w).
Proof.
  unfold currentChanged.
  destruct newValue as [widget|]; [|apply same_wiring_refl].
  case_decide; [|apply same_wiring_refl].
  destruct (handlers t w !! widget_id widget).
  - apply promise_then_same_wiring.
  - split_and!; try done. intros p. apply promise_kept_refl.
Qed.

(** X16: a focus change, to any widget or to none, touches neither
    dictionary of handlers, no callback waiting for a connector or for a
    handler, no slot, no tracker, no disposed or attached object and no
    identity; it registers no handler in the manager and leaves the
    manager's panel. Every promise stays, in its state, and keeps the
    callbacks registered on it, in their order: a focus change can only
    add callbacks after them. When the new widget is null or belongs to
    neither tracker, the world is left exactly as it is. When it belongs
    to one tracker and its entry there is a pending promise, the focus
    callback is added after the callbacks already registered on that
    promise, and neither the manager nor the calls made change. *)
Theorem focus_change_keeps_wiring
  (getScript : string -> Languages.LanguageModel + string)
  (newValue : option Widget) (w : World) :
  same_wiring w (step getScript (CurrentChanged newValue) w) /\
  (match newValue with
   | None => True
   | Some widget => (widget_obj widget ∉ console_tracker w)
                    /\ (widget_obj widget ∉ notebook_tracker w)
   end ->
   step getScript (CurrentChanged newValue) w = w) /\
  (forall (t : Tracker) (widget : Widget) (future : nat)
          (rs : list Reaction),
      newValue = Some widget ->
      widget_obj widget ∈ tracker t w ->
      widget_obj widget ∉ tracker (other t) w ->
      handlers t w !! widget_id widget = Some future ->
      promises w !! future = Some {| pstate := Pending; reactions := rs |} ->
      let w' := step getScript (CurrentChanged newValue) w in
      promises w' !! future
      = Some {| pstate := Pending; reactions := rs ++ [ActivateSource] |} /\
      manager w' = manager w /\ output w' = output w).
Proof.
  split; [|split].
  - simpl. eapply same_wiring_trans; apply currentChanged_same_wiring.
  - simpl. unfold currentChanged.
    destruct newValue as [widget|]; [|by intros _].
    intros [Hc Hn]. unfold tracker.
    rewrite (decide_False (P := _ ∈ console_tracker w)) by exact Hc.
    by rewrite (decide_False (P := _ ∈ notebook_tracker w)) by exact Hn.
  - intros t widget future rs -> Hin Hout Hentry Hp. simpl.
    destruct t; simpl in Hin, Hout, Hentry; unfold currentChanged, tracker.
    + rewrite (decide_True (P := _ ∈ console_tracker w)) by exact Hin.
      simpl. rewrite Hentry. unfold promise_then. rewrite Hp. simpl.
      rewrite (decide_False (P := _ ∈ notebook_tracker w)) by exact Hout.
      simpl. by rewrite lookup_insert_eq.
    + rewrite (decide_False (P := _ ∈ console_tracker w)) by exact Hout.
      rewrite (decide_True (P := _ ∈ notebook_tracker w)) by exact Hin.
      simpl. rewrite Hentry. unfold promise_then. rewrite Hp. simpl.
      by rewrite lookup_insert_eq.
Qed.

Lemma focus_change_keeps_wiring_witness :
  step Samples.sample_getScript (CurrentChanged (Some Samples.console1))
    Samples.world_nb1 = Samples.world_nb1 /\
  promises (step Samples.sample_getScript (CurrentChanged (Some Samples.nb1))
              (widgetAdded Notebooks Samples.nb1 init)) !! 0
  = Some {| pstate := Pending; reactions := [ActivateSource] |}.
Proof.
  assert (Hout : (widget_obj Samples.console1
                    ∉ console_tracker Samples.world_nb1)
                 /\ (widget_obj Samples.console1
                      ∉ notebook_tracker Samples.world_nb1)).
  { split; vm_compute; set_solver. }
  assert (Hin : widget_obj Samples.nb1
                ∈ tracker Notebooks (widgetAdded Notebooks Samples.nb1 init))
    by (vm_compute; set_solver).
  assert (Hnot : widget_obj Samples.nb1
                 ∉ tracker (other Notebooks)
                     (widgetAdded Notebooks Samples.nb1 init))
    by (vm_compute; set_solver).
  split.
  - exact (proj1 (proj2 (focus_change_keeps_wiring Samples.sample_getScript
                           (Some Samples.console1) Samples.world_nb1)) Hout).
  - exact (proj1 (proj2 (proj2 (focus_change_keeps_wiring
                                  Samples.sample_getScript
                                  (Some Samples.nb1)
                                  (widgetAdded Notebooks Samples.nb1 init)))
                    Notebooks Samples.nb1 0 [] eq_refl Hin Hnot
                    eq_refl eq_refl)).
Defined.

(** *** Panels disposed *)

(** X17: when a console or notebook panel is disposed after the slot of
    the wiring has been connected to it, its entry is deleted from its
    plugin's dictionary, the other entries and the other plugin's
    dictionary stay, the panel leaves both trackers and its slots are
    dropped. When the panel is disposed before any slot was connected
    (its connector is not ready yet), both dictionaries and the pending
    callbacks stay as they are: the entry is not deleted, and the
    callback that waits for the connector will still run. *)
Theorem panel_disposal_forgets_entry (t : Tracker) (o : nat)
  (pid : string) (h : Inspectable) (w : World)
  (Hlive : o ∉ disposed_objs w) :
  (disposed_slots w !! o = Some [ForgetAndDispose t pid h] ->
   let w' := widget_disposed o w in
   handlers t w' = delete pid (handlers t w) /\
   handlers (other t) w' = handlers (other t) w /\
   (o ∉ console_tracker w') /\ (o ∉ notebook_tracker w') /\
   disposed_slots w' !! o = None /\
   tasks w' = tasks w) /\
  (disposed_slots w !! o = None ->
   let w' := widget_disposed o w in
   console_handlers w' = console_handlers w /\
   notebook_handlers w' = notebook_handlers w /\
   tasks w' = tasks w /\ manager w' = manager w /\
   (o ∈ disposed_objs w')).
Proof.
  assert (Hnot : forall s : gset nat, o ∉ s ∖ {[o]}).
  { intros s Hin. apply elem_of_difference in Hin as [_ Hin].
    apply Hin. by apply elem_of_singleton. }
  split; intros Hslot; unfold widget_disposed;
    rewrite decide_False by done; simpl; rewrite Hslot; simpl.
  - unfold handler_dispose. simpl.
    case_decide; simpl; rewrite lookup_delete_eq;
      destruct t; simpl; by repeat split.
  - repeat split; try done.
    apply elem_of_union_l. by apply elem_of_singleton.
Qed.

Lemma panel_disposal_forgets_entry_witness :
  handlers Notebooks (widget_disposed 100 Samples.world_nb1) !! "nb-1"
  = None.
Proof.
  assert (Hlive : 100 ∉ disposed_objs Samples.world_nb1)
    by (vm_compute; set_solver).
  destruct (panel_disposal_forgets_entry Notebooks 100 "nb-1"
              (Inspection Samples.handler_nb1) Samples.world_nb1 Hlive)
    as [Hconnected _].
  destruct (Hconnected eq_refl) as (Hdel & _).
  rewrite Hdel. apply lookup_delete_eq.
Defined.

(** *** A second notebook on a session *)

(** The handler [h] becomes ready while exactly one callback waits for
    it. *)
Lemma step_handler_ready_single
  (getScript : string -> Languages.LanguageModel + string)
  (h : VariableInspectionHandler) (p : nat) (before after : list Task)
  (w : World) :
  tasks w = before ++ HandlerReadyThen h p :: after ->
  Forall (fun k => waits_for_handler (handler_obj h) k = false) before ->
  Forall (fun k => waits_for_handler (handler_obj h) k = false) after ->
  step getScript (HandlerReady (handler_obj h)) w
  = settle p (Fulfilled (Some (Inspection h)))
      (set_tasks (before ++ after) w).
Proof.
  intros Ht Hb Ha.
  destruct (filter_waits_none _ _ Hb) as [Hb1 Hb2].
  destruct (filter_waits_none _ _ Ha) as [Ha1 Ha2].
  unfold step. rewrite Ht, !filter_app, !filter_cons, Hb1, Hb2, Ha1, Ha2.
  cbn [waits_for_handler].
  rewrite (bool_decide_eq_true_2 (handler_obj h = handler_obj h) eq_refl).
  rewrite decide_False by done. rewrite decide_True by done.
  reflexivity.
Qed.

(** C2, on the code: the notebook wiring does not reuse the handler of a
    session. A notebook panel is added on a session path for which the
    manager holds a handler; its connector becomes ready on a kernel type
    that has a script, and its handler becomes ready. The panel's entry is
    then fulfilled with a second handler, constructed for that panel,
    which is not the registered one and takes its place in the manager
    (the registry still holds one handler for the path, the new one). A
    console added on the same session in the same world does get the
    registered handler. *)
Theorem notebook_builds_second_handler
  (getScript : string -> Languages.LanguageModel + string)
  (nbPanel consolePanel : Widget) (kerneltype : string)
  (result : Languages.LanguageModel)
  (registered : VariableInspectionHandler) (w : World)
  (Hreg : Manager.getHandler (path (widget_session nbPanel)) (manager w)
          = Some registered)
  (Hconsole : widget_session consolePanel = widget_session nbPanel)
  (Hscript : getScript kerneltype = inl result)
  (Hids : ids_allocated w)
  (Hconn : Forall (fun k => waits_for_connector (S (next_obj w)) k = false)
                  (tasks w))
  (Hhand : Forall (fun k => waits_for_handler (S (S (next_obj w))) k = false)
                  (tasks w)) :
  let c := {| connector_obj := S (next_obj w);
              session := widget_session nbPanel |} in
  let second := {| handler_obj := S (S (next_obj w));
                   options :=
                     {| queryCommand := Languages.queryCommand result;
                        matrixQueryCommand :=
                          Languages.matrixQueryCommand result;
                        connector := c;
                        initScript := Languages.initScript result;
                        id := path (widget_session nbPanel) |} |} in
  let after := [ConnectorReady (S (next_obj w)) kerneltype;
                HandlerReady (S (S (next_obj w)))] in
  let w3 := run getScript (WidgetAdded Notebooks nbPanel :: after) w in
  handler_entry Notebooks (widget_id nbPanel) w3
  = Some (Fulfilled (Some (Inspection second))) /\
  second <> registered /\
  ~ reuses_registered_handler getScript Notebooks nbPanel after w /\
  registered_under (path (widget_session nbPanel)) (manager w3) = [second] /\
  reuses_registered_handler getScript Consoles consolePanel [] w.
Proof.
  intros c second after w3.
  set (n := next_obj w) in *.
  set (w1 := widgetAdded Notebooks nbPanel w).
  assert (H1 : tasks w1 = tasks w ++ [ConnectorReadyThen Notebooks nbPanel c n]
               /\ manager w1 = manager w /\ next_obj w1 = S (S n)
               /\ handlers Notebooks w1 !! widget_id nbPanel = Some n
               /\ promises w1 !! n
                  = Some {| pstate := Pending; reactions := [] |}).
  { subst w1. simpl. by rewrite !lookup_insert_eq. }
  destruct H1 as (Ht1 & Hm1 & Hn1 & He1 & Hp1).
  set (w2 := step getScript (ConnectorReady (S n) kerneltype) w1).
  assert (E2 : w2 = on_connector_ready getScript Notebooks nbPanel c n
                      kerneltype (set_tasks (tasks w ++ []) w1)).
  { apply (step_connector_ready_single getScript Notebooks nbPanel c n
             kerneltype (tasks w) [] w1); done. }
  assert (H2 : tasks w2 = (tasks w ++ []) ++ [HandlerReadyThen second n]
               /\ manager w2 = Manager.addHandler second (manager w)
               /\ handlers Notebooks w2 !! widget_id nbPanel = Some n
               /\ promises w2 !! n
                  = Some {| pstate := Pending; reactions := [] |}).
  { rewrite E2. unfold on_connector_ready. rewrite Hscript.
    cbn [fresh fst snd set_manager connect_disposed set_disposed_slots
         set_tasks tasks manager handlers notebook_handlers promises
         next_obj].
    by rewrite Hm1, Hn1. }
  destruct H2 as (Ht2 & Hm2 & He2 & Hp2).
  assert (E3 : w3 = settle n (Fulfilled (Some (Inspection second)))
                      (set_tasks ((tasks w ++ []) ++ []) w2)).
  { change w3 with (step getScript (HandlerReady (handler_obj second)) w2).
    apply (step_handler_ready_single getScript second n (tasks w ++ []) []
             w2); [done| |done].
    by rewrite app_nil_r. }
  assert (H3 : handler_entry Notebooks (widget_id nbPanel) w3
               = Some (Fulfilled (Some (Inspection second)))
               /\ manager w3 = Manager.addHandler second (manager w)).
  { rewrite E3. unfold settle. cbn [set_tasks promises]. rewrite Hp2.
    cbn [foldl]. unfold handler_entry.
    cbn [set_promises set_tasks handlers notebook_handlers promises
         manager].
    change (notebook_handlers w2) with (handlers Notebooks w2).
    rewrite He2. simpl. by rewrite lookup_insert_eq. }
  destruct H3 as (He3 & Hm3).
  assert (Hnew : second <> registered).
  { intros Heq. specialize (Hids _ _ Hreg). rewrite <- Heq in Hids.
    simpl in Hids. lia. }
  split; [done|]. split; [done|]. split; [|split].
  - intros Hreuse. specialize (Hreuse registered Hreg).
    change (run getScript (WidgetAdded Notebooks nbPanel :: after) w)
      with w3 in Hreuse.
    rewrite He3 in Hreuse. congruence.
  - rewrite ManagerProofs.registered_under_lookup, Hm3. simpl.
    by rewrite lookup_insert_eq.
  - intros h0 Hh0. simpl.
    by apply PluginProofs.consoles_widgetAdded_reuses.
Qed.

Lemma notebook_builds_second_handler_witness :
  Manager.getHandler "a.ipynb" (manager Samples.world_nb1)
  = Some Samples.handler_nb1 /\
  handler_entry Notebooks "nb-2"
    (run Samples.sample_getScript
       [WidgetAdded Notebooks Samples.nb2; ConnectorReady 4 "python3";
        HandlerReady 5] Samples.world_nb1)
  = Some (Fulfilled (Some (Inspection
       {| handler_obj := 5;
          options :=
            {| queryCommand := Languages.queryCommand Samples.python3;
               matrixQueryCommand :=
                 Languages.matrixQueryCommand Samples.python3;
               connector := {| connector_obj := 4;
                               session := {| path := "a.ipynb" |} |};
               initScript := Languages.initScript Samples.python3;
               id := "a.ipynb" |} |}))) /\
  ~ reuses_registered_handler Samples.sample_getScript Notebooks Samples.nb2
      [ConnectorReady 4 "python3"; HandlerReady 5] Samples.world_nb1 /\
  reuses_registered_handler Samples.sample_getScript Consoles
    Samples.console1 [] Samples.world_nb1.
Proof.
  pose proof (PluginProofs.run_allocated Samples.sample_getScript
                [WidgetAdded Notebooks Samples.nb1;
                 ConnectorReady 1 "python3"; HandlerReady 2])
    as Hids.
  destruct (notebook_builds_second_handler Samples.sample_getScript
              Samples.nb2 Samples.console1 "python3" Samples.python3
              Samples.handler_nb1 Samples.world_nb1
              eq_refl eq_refl eq_refl Hids (Forall_nil_2 _) (Forall_nil_2 _))
    as (Hentry & _ & Hnot & _ & Hconsole).
  split; [reflexivity|]. split; [exact Hentry|].
  split; [exact Hnot|exact Hconsole].
Defined.

End WiringProofs.
